(** * wsgiservice.application: the request dispatch pipeline

    A shallow embedding of [src/wsgiservice/application.py] (Python 2) and
    the properties of its dispatch pipeline: method resolution, the
    conditional-request evaluator, parameter binding and validation, the
    header merge and the status-response helpers.

    Conventions of the embedding:
    - a Python [dict] with string keys is a [gmap string _];
    - a Python value that may be [None] is an [option] or the [VNone]
      constructor of [value];
    - exceptions, the call trace of resource methods and the dict objects
      created once for the [headers={}] default arguments are threaded
      through the monad [M];
    - [hashlib], [re] and [webob._serialize_date] are library code: they are
      the fields of the class [Runtime]. *)

From Stdlib Require Import Ascii String ZArith List Bool Lia.
From stdpp Require Import gmap strings list fin_maps pretty.

Local Open Scope Z_scope.

(** ** Python [str] operations used by the module *)

Module Str.

(** The double-quote character. *)
Definition dquote : ascii := Ascii.ascii_of_nat 34.

(** The line feed character. *)
Definition newline : ascii := Ascii.ascii_of_nat 10.

Definition quote : string := String dquote EmptyString.

(** [s.replace(dquote, '')]: every double quote is removed. *)
Fixpoint strip_quotes (s : string) : string :=
  match s with
  | EmptyString => EmptyString
  | String c s' =>
      if Ascii.eqb c dquote then strip_quotes s'
      else String c (strip_quotes s')
  end.

Definition upper_ascii (c : ascii) : ascii :=
  let n := Ascii.nat_of_ascii c in
  if ((97 <=? n)%nat && (n <=? 122)%nat)%bool
  then Ascii.ascii_of_nat (n - 32) else c.

(** [s.upper()] on a byte string *)
Fixpoint upper (s : string) : string :=
  match s with
  | EmptyString => EmptyString
  | String c s' => String (upper_ascii c) (upper s')
  end.

(** [sep.join(l)] *)
Fixpoint join (sep : string) (l : list string) : string :=
  match l with
  | [] => EmptyString
  | [x] => x
  | x :: l' => x +:+ sep +:+ join sep l'
  end.

(** Truth value of a [str]: the empty string is false. *)
Definition truthy (s : string) : bool :=
  match s with EmptyString => false | String _ _ => true end.

(** [x in (a, b, ...)] for strings *)
Definition member (x : string) (l : list string) : bool :=
  existsb (String.eqb x) l.

End Str.

(** ** webob: the parts of the request the module reads *)

Module webob.

(** [webob.etag]: the value of [request.if_match] and
    [request.if_none_match]. An absent [If-Match] header (or [*]) is
    [AnyETag], an absent [If-None-Match] header is [NoETag]. *)
Inductive etag_matcher :=
| AnyETag
| NoETag
| ETagMatcher (etags : list string).

(** [tag in matcher] *)
Definition contains (m : etag_matcher) (tag : string) : bool :=
  match m with
  | AnyETag => true
  | NoETag => false
  | ETagMatcher etags => Str.member tag etags
  end.

(** [webob.Request]. Dates are seconds since the epoch. *)
Record Request := mkRequest {
  method : string;
  GET : gmap string string;
  POST : gmap string string;
  if_match : etag_matcher;
  if_none_match : etag_matcher;
  if_modified_since : option Z;
  if_unmodified_since : option Z;
}.

End webob.

Export webob(Request, etag_matcher(..)).

(** ** Python values, exceptions and dicts of headers *)

(** The values that flow through the pipeline: arguments bound to handler
    parameters and results of resource methods. *)
Inductive value :=
| VNone
| VStr (s : string)
| VDate (t : Z)
| VRequest (r : Request)
| VMini (body : value) (headers : option (gmap string (option string))).

(** A header dict: the values are [None] or strings. *)
Abbreviation Headers := (gmap string (option string)).

(** A validation rule set, [{'re': ..., 'doc': ...}]. *)
Abbreviation Rules := (gmap string (option string)).

(** Python truth value of [value]. *)
Definition truthy (v : value) : bool :=
  match v with
  | VNone => false
  | VStr s => Str.truthy s
  | _ => true
  end.

(** Truth value of a header value ([None] or a string). *)
Definition truthy_opt (v : option string) : bool :=
  match v with
  | None => false
  | Some s => Str.truthy s
  end.

Inductive exn :=
| ValidationException (msg : string)
| PyError (kind : string).

Inductive Outcome (A : Type) :=
| Ret (a : A)
| Raise (e : exn).
Arguments Ret {A} a.
Arguments Raise {A} e.

(** ** Library code the module calls *)

(** [md5_hexdigest data] is [hashlib.md5(data).hexdigest()]; [http_date t]
    is the HTTP-date webob writes for a datetime; [re_search pattern s]
    tells whether [re.search(pattern, s)] finds a match, and is [None] when
    [re] rejects the pattern. *)
Class Runtime := {
  md5_hexdigest : string -> string;
  http_date : Z -> string;
  re_search : string -> string -> option bool;
}.

(** ** Resources *)

(** A bound method of a resource instance: [argspec] is the argument list
    [inspect.getargspec] reports (the receiver included), [_validations] the
    attribute of that name on the method when it has one,
    [im_class_validations] the one on the method's class, [run] the call
    [method( *params)]. *)
Record Method := mkMethod {
  argspec : list string;
  _validations : option (gmap string Rules);
  im_class_validations : option (gmap string Rules);
  run : list value -> Outcome value;
}.

Inductive Attribute :=
| Callable (m : Method)
| Plain (v : value).

(** A resource instance: its attributes, in the order of [dir(instance)]. *)
Record Instance := mkInstance {
  attributes : list (string * Attribute);
}.

Definition dir (instance : Instance) : list string :=
  map fst (attributes instance).

Fixpoint assoc {A : Type} (name : string) (l : list (string * A)) : option A :=
  match l with
  | [] => None
  | (k, a) :: l' => if String.eqb k name then Some a else assoc name l'
  end.

Definition getattr (instance : Instance) (name : string) : option Attribute :=
  assoc name (attributes instance).

Definition hasattr (instance : Instance) (name : string) : bool :=
  match getattr instance name with Some _ => true | None => false end.

(** [callable(getattr(instance, name))], false when the attribute is
    missing. *)
Definition callable_attr (instance : Instance) (name : string) : bool :=
  match getattr instance name with Some (Callable _) => true | _ => false end.

(** ** The WSGI environment *)

(** The keys of [environ] the pipeline reads. The query string, the form
    body and the conditional headers are carried the way webob parses
    them. *)
Record Environ := mkEnviron {
  PATH_INFO : string;
  REQUEST_METHOD : string;
  HTTP_CONTENT_MD5 : option string;
  wsgi_input : string;
  QUERY : gmap string string;
  FORM : gmap string string;
  HTTP_IF_MATCH : etag_matcher;
  HTTP_IF_NONE_MATCH : etag_matcher;
  HTTP_IF_MODIFIED_SINCE : option Z;
  HTTP_IF_UNMODIFIED_SINCE : option Z;
}.

(** [webob.Request(environ)] *)
Definition webob_Request (environ : Environ) : Request :=
  {| webob.method := REQUEST_METHOD environ;
     webob.GET := QUERY environ;
     webob.POST := FORM environ;
     webob.if_match := HTTP_IF_MATCH environ;
     webob.if_none_match := HTTP_IF_NONE_MATCH environ;
     webob.if_modified_since := HTTP_IF_MODIFIED_SINCE environ;
     webob.if_unmodified_since := HTTP_IF_UNMODIFIED_SINCE environ |}.

(** ** The state threaded through the pipeline *)

(** The dict objects Python creates once, when the [def] statements of
    [_get_response_400], [_get_response_404], [_get_response_405] and
    [_get_response_501] are executed, as the value of [headers={}]. *)
Inductive Slot := Default400 | Default404 | Default405 | Default501.

(** A reference to a header dict: one of the shared default objects, or a
    dict built while serving the request. *)
Inductive dict_ref :=
| Shared (slot : Slot)
| Fresh (d : Headers).

(** One call of a resource method: the attribute name and the arguments. *)
Definition Call : Type := string * list value.

Record World := mkWorld {
  headers_400 : Headers;
  headers_404 : Headers;
  headers_405 : Headers;
  headers_501 : Headers;
  calls : list Call;
}.

(** The state right after the module is imported. *)
Definition initial_world : World :=
  {| headers_400 := ∅; headers_404 := ∅; headers_405 := ∅;
     headers_501 := ∅; calls := [] |}.

Definition slot_dict (w : World) (slot : Slot) : Headers :=
  match slot with
  | Default400 => headers_400 w
  | Default404 => headers_404 w
  | Default405 => headers_405 w
  | Default501 => headers_501 w
  end.

Definition set_slot (w : World) (slot : Slot) (d : Headers) : World :=
  match slot with
  | Default400 => mkWorld d (headers_404 w) (headers_405 w) (headers_501 w) (calls w)
  | Default404 => mkWorld (headers_400 w) d (headers_405 w) (headers_501 w) (calls w)
  | Default405 => mkWorld (headers_400 w) (headers_404 w) d (headers_501 w) (calls w)
  | Default501 => mkWorld (headers_400 w) (headers_404 w) (headers_405 w) d (calls w)
  end.

(** The dict a reference denotes in a given state. *)
Definition deref (w : World) (ref : dict_ref) : Headers :=
  match ref with
  | Shared slot => slot_dict w slot
  | Fresh d => d
  end.

Definition M (A : Type) : Type := World -> Outcome A * World.

Definition ret {A : Type} (a : A) : M A := fun w => (Ret a, w).

Definition raise {A : Type} (e : exn) : M A := fun w => (Raise e, w).

Definition bind {A B : Type} (c : M A) (k : A -> M B) : M B :=
  fun w =>
    match c w with
    | (Ret a, w') => k a w'
    | (Raise e, w') => (Raise e, w')
    end.

Declare Scope py_scope.
Delimit Scope py_scope with py.
Notation "x <- c ;; k" := (bind c (fun x => k))
  (at level 100, c at next level, right associativity) : py_scope.
Local Open Scope py_scope.

(** [d[key] = v] through a reference; the result is the reference to the
    updated dict. *)
Definition setitem (ref : dict_ref) (key : string) (v : option string) : M dict_ref :=
  fun w =>
    match ref with
    | Shared slot => (Ret ref, set_slot w slot (<[key := v]> (slot_dict w slot)))
    | Fresh d => (Ret (Fresh (<[key := v]> d)), w)
    end.

(** The state after one more call of a resource method. *)
Definition log_call (w : World) (call : Call) : World :=
  mkWorld (headers_400 w) (headers_404 w) (headers_405 w) (headers_501 w)
          (calls w ++ [call]).

(** The call [method( *params)] of the attribute [name], recorded in the
    trace. *)
Definition invoke (name : string) (m : Method) (params : list value) : M value :=
  fun w => (run m params, log_call w (name, params)).

(** ** Responses *)

(** The body handed to [Response]: [None], the dict [{'error': msg}], or
    what the handler returned. *)
Inductive Body :=
| BNone
| BError (msg : string)
| BValue (v : value).

(** The arguments of [Response(body, environ, instance, method, status=...,
    headers=..., extension=...)]; [environ] and [instance] are left out. *)
Record Response := mkResponse {
  body : Body;
  res_method : option string;
  status : Z;
  headers : dict_ref;
  extension : option string;
}.

(** Modelled from the spec: the class [wsgiservice.Response] is not part of
    the sources; a response built without a [status] argument is the
    implicit success of the spec, status 200. *)
Definition Response_default_status : Z := 200.

(** ** class Application *)

Record Application := mkApplication {
  _urlmap : string -> option (gmap string string * Instance);
}.

Section Application.
Context {runtime : Runtime}.

(** The body of [_resolve_method]; [recur] stands for the recursive call. *)
Definition resolve_method_body (recur : Instance -> string -> option string)
    (instance : Instance) (method : string) : option string :=
  if callable_attr instance method then Some method
  else if String.eqb method "HEAD" then recur instance "GET"
  else None.

(** [_resolve_method]: the recursive call is made with ['GET'], whose own
    [elif] branch is not taken, so two unfoldings of the body are the whole
    function. *)
Definition _resolve_method : Instance -> string -> option string :=
  resolve_method_body (resolve_method_body (fun _ _ => None)).

Definition _get_allowed_methods (instance : Instance) : string :=
  Str.join ", "
    (List.filter
       (fun method => String.eqb (Str.upper method) method
                      && callable_attr instance method)
       (dir instance)).

Definition _get_response_304 (instance : option Instance) (environ : Environ)
    (headers : dict_ref) : M Response :=
  ret (mkResponse BNone None 304 headers None).

Definition _get_response_400 (instance : option Instance) (environ : Environ)
    (headers : option dict_ref) (body : option string) : M Response :=
  let headers := default (Shared Default400) headers in
  let body := default "Invalid request" body in
  ret (mkResponse (BError body) None 400 headers None).

Definition _get_response_404 (instance : option Instance) (environ : Environ)
    (headers : option dict_ref) : M Response :=
  let headers := default (Shared Default404) headers in
  ret (mkResponse (BError "not found") None 404 headers None).

Definition _get_response_405 (instance : Instance) (environ : Environ)
    (headers : option dict_ref) : M Response :=
  let headers := default (Shared Default405) headers in
  headers <- setitem headers "Allow" (Some (_get_allowed_methods instance)) ;;
  ret (mkResponse (BError "Invalid method on resource") None 405 headers None).

Definition _get_response_412 (instance : option Instance) (environ : Environ)
    (headers : dict_ref) : M Response :=
  ret (mkResponse (BError "Precondition failed") None 412 headers None).

Definition _get_response_501 (instance : Instance) (environ : Environ)
    (headers : option dict_ref) : M Response :=
  let headers := default (Shared Default501) headers in
  headers <- setitem headers "Allow" (Some (_get_allowed_methods instance)) ;;
  ret (mkResponse (BError "Unknown method") None 501 headers None).

(** [getattr(self, '_get_response_' + str(status))(instance, environ,
    headers)] *)
Definition _get_response_ (status : Z) (instance : Instance) (environ : Environ)
    (headers : dict_ref) : M Response :=
  if status =? 304 then _get_response_304 (Some instance) environ headers
  else if status =? 400 then _get_response_400 (Some instance) environ (Some headers) None
  else if status =? 404 then _get_response_404 (Some instance) environ (Some headers)
  else if status =? 405 then _get_response_405 instance environ (Some headers)
  else if status =? 412 then _get_response_412 (Some instance) environ headers
  else if status =? 501 then _get_response_501 instance environ (Some headers)
  else raise (PyError "AttributeError").

(** The rule set [_validate_param] consults: the method's own, else the one
    of its class. *)
Definition find_rules (method : Method) (param : string) : option Rules :=
  match _validations method ≫= (.!! param) with
  | Some rules => Some rules
  | None => im_class_validations method ≫= (.!! param)
  end.

Definition _validate_param (method : Method) (param : string) (value : value) : M unit :=
  match find_rules method param with
  | None => ret tt
  | Some rules =>
      match value with
      | VNone =>
          raise (ValidationException ("Value for " +:+ param +:+ " must not be empty."))
      | VStr s =>
          if (String.length s =? 0)%nat then
            raise (ValidationException ("Value for " +:+ param +:+ " must not be empty."))
          else
            match rules !! "re" with
            | Some (Some pattern) =>
                if Str.truthy pattern then
                  match re_search ("^" +:+ pattern +:+ "$") s with
                  | None => raise (PyError "re.error")
                  | Some true => ret tt
                  | Some false =>
                      raise (ValidationException
                               (param +:+ " value " +:+ s +:+ " does not validate."))
                  end
                else ret tt
            | _ => ret tt
            end
      | _ => raise (PyError "TypeError")
      end
  end.

(** The value bound to one declared parameter. *)
Definition resolve_param (path_params : gmap string string) (request : Request)
    (param : string) : value :=
  if String.eqb param "request" then VRequest request
  else match path_params !! param with
       | Some v => VStr v
       | None =>
           match webob.GET request !! param with
           | Some v => VStr v
           | None =>
               match webob.POST request !! param with
               | Some v => VStr v
               | None => VNone
               end
           end
       end.

(** The [for param in method_params] loop; [params] is the list built so
    far. *)
Fixpoint bind_params (method : Method) (path_params : gmap string string)
    (request : Request) (method_params : list string) (params : list value)
    : M (list value) :=
  match method_params with
  | [] => ret params
  | param :: rest =>
      let value := resolve_param path_params request param in
      _ <- _validate_param method param value ;;
      bind_params method path_params request rest (params ++ [value])
  end.

Definition _call_dynamic_method (instance : Instance) (method : string)
    (path_params : gmap string string) (request : Request) : M value :=
  match getattr instance method with
  | None => raise (PyError "AttributeError")
  | Some (Plain _) => raise (PyError "TypeError")
  | Some (Callable m) =>
      let method_params := tail (argspec m) in
      params <- bind_params m path_params request method_params [] ;;
      invoke method m params
  end.

Definition _get_etag (instance : Instance) (path_params : gmap string string)
    (request : Request) : M (option string) :=
  if negb (hasattr instance "get_etag") then ret None
  else
    retval <- _call_dynamic_method instance "get_etag" path_params request ;;
    if truthy retval then
      match retval with
      | VStr s => ret (Some (Str.quote +:+ Str.strip_quotes s +:+ Str.quote))
      | VDate _ => raise (PyError "TypeError")
      | _ => raise (PyError "AttributeError")
      end
    else ret None.

Definition _get_last_modified (instance : Instance)
    (path_params : gmap string string) (request : Request) : M value :=
  if negb (hasattr instance "get_last_modified") then ret VNone
  else _call_dynamic_method instance "get_last_modified" path_params request.

(** [webob._serialize_date(dt)]: [None] and strings pass through, a
    datetime is written as an HTTP-date. *)
Definition _serialize_date (dt : value) : M (option string) :=
  match dt with
  | VNone => ret None
  | VStr s => ret (Some s)
  | VDate t => ret (Some (http_date t))
  | _ => raise (PyError "AttributeError")
  end.

Definition _handle_condition_etag (request : Request) (etag : option string) : Z :=
  match etag with
  | None => 0
  | Some etag =>
      if negb (Str.truthy etag) then 0
      else
        let etag_match := Str.strip_quotes etag in
        if negb (webob.contains (webob.if_match request) etag_match) then 412
        else if webob.contains (webob.if_none_match request) etag_match then
          (if Str.member (webob.method request) ["GET"; "HEAD"] then 304
           else 412)
        else 0
  end.

(** [last_modified <= date] and [last_modified > date]: a datetime compares
    with datetimes only. *)
Definition date_le (last_modified : value) (date : Z) : M bool :=
  match last_modified with
  | VDate t => ret (t <=? date)
  | _ => raise (PyError "TypeError")
  end.

Definition date_gt (last_modified : value) (date : Z) : M bool :=
  match last_modified with
  | VDate t => ret (t >? date)
  | _ => raise (PyError "TypeError")
  end.

(** The result is [None] where the source leaves through a bare [return];
    in [_handle_conditions] the test [status > 0] is then false, [None]
    being smaller than every number in Python 2. *)
Definition _handle_condition_last_modified (request : Request)
    (last_modified : value) : M (option Z) :=
  if negb (truthy last_modified) then ret None
  else
    not_modified <-
      match webob.if_modified_since request with
      | None => ret false
      | Some since => date_le last_modified since
      end ;;
    if not_modified then ret (Some 304)
    else
      failed <-
        match webob.if_unmodified_since request with
        | None => ret false
        | Some since => date_gt last_modified since
        end ;;
      if failed then ret (Some 412) else ret (Some 0).

Definition _handle_conditions (instance : Instance)
    (path_params : gmap string string) (environ : Environ) (request : Request)
    : M (Headers * option Response) :=
  let mismatch :=
    match HTTP_CONTENT_MD5 environ with
    | Some content_md5 =>
        let body_md5 := md5_hexdigest (wsgi_input environ) in
        negb (String.eqb body_md5 content_md5)
    | None => false
    end in
  if mismatch then
    response <- _get_response_400 (Some instance) environ None
                  (Some "The Content-MD5 request header does not match the body.") ;;
    ret (∅, Some response)
  else
    etag <- _get_etag instance path_params request ;;
    last_modified <- _get_last_modified instance path_params request ;;
    date <- _serialize_date last_modified ;;
    let headers : Headers := <["ETag" := etag]> (<["Last-Modified" := date]> ∅) in
    let status := _handle_condition_etag request etag in
    status <-
      (if status =? 0
       then _handle_condition_last_modified request last_modified
       else ret (Some status)) ;;
    match status with
    | Some status =>
        if status >? 0 then
          response <- _get_response_ status instance environ (Fresh headers) ;;
          ret (headers, Some response)
        else ret (headers, None)
    | None => ret (headers, None)
    end.

(** The [for key, value in default_headers.iteritems()] loop of
    [_call_resource]. *)
Definition merge_default_headers (default_headers headers : Headers) : Headers :=
  map_fold
    (fun key value headers =>
       if truthy_opt value && negb (bool_decide (is_Some (headers !! key)))
       then <[key := value]> headers
       else headers)
    headers default_headers.

Definition _call_resource (res : Instance) (path_params : gmap string string)
    (environ : Environ) : M Response :=
  let request := webob_Request environ in
  let instance := res in
  match _resolve_method instance (webob.method request) with
  | None =>
      if Str.member (webob.method request)
           ["OPTIONS"; "GET"; "HEAD"; "POST"; "PUT"; "DELETE"; "TRACE"; "CONNECT"]
      then _get_response_405 instance environ None
      else _get_response_501 instance environ None
  | Some method =>
      conditions <- _handle_conditions instance path_params environ request ;;
      let default_headers := fst conditions in
      match snd conditions with
      | Some response => ret response
      | None =>
          result <- _call_dynamic_method instance method path_params request ;;
          let body := match result with VMini body _ => body | _ => result end in
          let headers := match result with VMini _ headers => headers | _ => None end in
          let headers :=
            match headers with
            | None => ∅
            | Some headers => if bool_decide (headers = ∅) then ∅ else headers
            end in
          let headers := merge_default_headers default_headers headers in
          ret (mkResponse (BValue body) (Some method) Response_default_status
                 (Fresh headers) (path_params !! "_extension"))
      end
  end.

Definition _handle_request (self : Application) (environ : Environ) : M Response :=
  let path := PATH_INFO environ in
  match _urlmap self path with
  | None => _get_response_404 None environ None
  | Some (path_params, res) => _call_resource res path_params environ
  end.

(** [__call__]: the response whose status and headers go to
    [start_response]; its serialisation [str(res)] is left out. *)
Definition __call__ (self : Application) (environ : Environ) : M Response :=
  res <- _handle_request self environ ;;
  ret res.

End Application.

(** ** A fragment of Python's [re]

    Literals, [.], the anchors [^] and [$], character sets with ranges and
    negation, the escapes [\d], [\w], [\s] and their complements, groups,
    alternation and the postfix operators [*], [+] and [?]. No flag is set:
    [^] matches at the start of the string only, [$] at its end or just
    before a line feed that ends it, [.] every character but the line
    feed. A pattern outside the fragment is not parsed. *)

Module re.

Inductive regex :=
| Empty
| Lit (c : ascii)
| AnyChar
| InSet (negate : bool) (ranges : list (ascii * ascii))
| Bol
| Eol
| Cat (r1 r2 : regex)
| Alt (r1 r2 : regex)
| Star (r : regex).

Definition digits : list (ascii * ascii) := [("0", "9")]%char.

Definition word : list (ascii * ascii) :=
  [("a", "z"); ("A", "Z"); ("0", "9"); ("_", "_")]%char.

Definition space : list (ascii * ascii) :=
  [(Ascii.ascii_of_nat 9, Ascii.ascii_of_nat 13); (" ", " ")]%char.

Definition is_alnum (c : ascii) : bool :=
  let n := Ascii.nat_of_ascii c in
  ((48 <=? n) && (n <=? 57) || (65 <=? n) && (n <=? 90)
   || (97 <=? n) && (n <=? 122))%nat.

(** What a backslash followed by [c] denotes outside a set. *)
Definition escape (c : ascii) : option regex :=
  if Ascii.eqb c "d" then Some (InSet false digits)
  else if Ascii.eqb c "D" then Some (InSet true digits)
  else if Ascii.eqb c "w" then Some (InSet false word)
  else if Ascii.eqb c "W" then Some (InSet true word)
  else if Ascii.eqb c "s" then Some (InSet false space)
  else if Ascii.eqb c "S" then Some (InSet true space)
  else if Ascii.eqb c "n" then Some (Lit Str.newline)
  else if is_alnum c then None
  else Some (Lit c).

(** What a backslash followed by [c] denotes inside a set. *)
Definition set_escape (c : ascii) : option (list (ascii * ascii)) :=
  if Ascii.eqb c "d" then Some digits
  else if Ascii.eqb c "w" then Some word
  else if Ascii.eqb c "s" then Some space
  else if Ascii.eqb c "n" then Some [(Str.newline, Str.newline)]
  else if is_alnum c then None
  else Some [(c, c)].

(** The items of a set, up to the closing bracket. *)
Fixpoint parse_set_items (s : list ascii) : option (list (ascii * ascii) * list ascii) :=
  match s with
  | [] => None
  | c :: s1 =>
      if Ascii.eqb c "]" then Some ([], s1)
      else if Ascii.eqb c "\" then
        match s1 with
        | e :: s2 =>
            match set_escape e, parse_set_items s2 with
            | Some rs, Some (items, rest) => Some (rs ++ items, rest)
            | _, _ => None
            end
        | [] => None
        end
      else
        match s1 with
        | d :: hi :: s3 =>
            if Ascii.eqb d "-" && negb (Ascii.eqb hi "]") then
              if Ascii.eqb hi "\" then None
              else
                match parse_set_items s3 with
                | Some (items, rest) => Some ((c, hi) :: items, rest)
                | None => None
                end
            else
              match parse_set_items s1 with
              | Some (items, rest) => Some ((c, c) :: items, rest)
              | None => None
              end
        | _ =>
            match parse_set_items s1 with
            | Some (items, rest) => Some ((c, c) :: items, rest)
            | None => None
            end
        end
  end.

(** A set, after its opening bracket. A set that starts with a closing
    bracket is outside the fragment. *)
Definition parse_set (s : list ascii) : option (regex * list ascii) :=
  let negate := match s with c :: _ => Ascii.eqb c "^" | [] => false end in
  let s := if negate then tail s else s in
  match s with
  | c :: _ =>
      if Ascii.eqb c "]" then None
      else match parse_set_items s with
           | Some (items, rest) => Some (InSet negate items, rest)
           | None => None
           end
  | [] => None
  end.

Definition is_postfix (c : ascii) : bool :=
  Ascii.eqb c "*" || Ascii.eqb c "+" || Ascii.eqb c "?" || Ascii.eqb c "{".

(** One postfix operator after an atom; a second one in a row (a lazy or a
    stacked repeat) is outside the fragment. *)
Definition parse_postfix (atom : regex) (s : list ascii) : option (regex * list ascii) :=
  match s with
  | c :: s1 =>
      if is_postfix c then
        match s1 with
        | c' :: _ => if is_postfix c' then None else
            if Ascii.eqb c "*" then Some (Star atom, s1)
            else if Ascii.eqb c "+" then Some (Cat atom (Star atom), s1)
            else if Ascii.eqb c "?" then Some (Alt atom Empty, s1)
            else None
        | [] =>
            if Ascii.eqb c "*" then Some (Star atom, s1)
            else if Ascii.eqb c "+" then Some (Cat atom (Star atom), s1)
            else if Ascii.eqb c "?" then Some (Alt atom Empty, s1)
            else None
        end
      else Some (atom, s)
  | [] => Some (atom, s)
  end.

(** The grammar: alternation binds weakest, then concatenation, then the
    postfix operators. *)
Fixpoint parse_alt (fuel : nat) (s : list ascii) : option (regex * list ascii) :=
  match fuel with
  | O => None
  | S fuel =>
      match parse_seq fuel s with
      | Some (r1, c :: s1) =>
          if Ascii.eqb c "|" then
            match parse_alt fuel s1 with
            | Some (r2, s2) => Some (Alt r1 r2, s2)
            | None => None
            end
          else Some (r1, c :: s1)
      | other => other
      end
  end
with parse_seq (fuel : nat) (s : list ascii) : option (regex * list ascii) :=
  match fuel with
  | O => None
  | S fuel =>
      match s with
      | [] => Some (Empty, [])
      | c :: _ =>
          if Ascii.eqb c "|" || Ascii.eqb c ")" then Some (Empty, s)
          else
            match parse_atom fuel s with
            | Some (atom, s1) =>
                match parse_postfix atom s1 with
                | Some (item, s2) =>
                    match parse_seq fuel s2 with
                    | Some (r, s3) => Some (Cat item r, s3)
                    | None => None
                    end
                | None => None
                end
            | None => None
            end
      end
  end
with parse_atom (fuel : nat) (s : list ascii) : option (regex * list ascii) :=
  match fuel with
  | O => None
  | S fuel =>
      match s with
      | [] => None
      | c :: s1 =>
          if Ascii.eqb c "(" then
            match s1 with
            | q :: _ =>
                if Ascii.eqb q "?" then None
                else
                  match parse_alt fuel s1 with
                  | Some (r, c' :: s2) =>
                      if Ascii.eqb c' ")" then Some (r, s2) else None
                  | _ => None
                  end
            | [] => None
            end
          else if Ascii.eqb c "[" then parse_set s1
          else if Ascii.eqb c "\" then
            match s1 with
            | e :: s2 =>
                match escape e with
                | Some r => Some (r, s2)
                | None => None
                end
            | [] => None
            end
          else if Ascii.eqb c "." then Some (AnyChar, s1)
          else if Ascii.eqb c "^" then Some (Bol, s1)
          else if Ascii.eqb c "$" then Some (Eol, s1)
          else if is_postfix c then None
          else Some (Lit c, s1)
      end
  end.

Definition parse (pattern : string) : option regex :=
  let s := list_ascii_of_string pattern in
  match parse_alt (4 * List.length s + 4) s with
  | Some (r, []) => Some r
  | _ => None
  end.

Definition in_range (c : ascii) (range : ascii * ascii) : bool :=
  ((Ascii.nat_of_ascii (fst range) <=? Ascii.nat_of_ascii c)
   && (Ascii.nat_of_ascii c <=? Ascii.nat_of_ascii (snd range)))%nat.

(** [matches r pos s k]: [r] matches a prefix of [s], which starts at
    offset [pos] of the subject, and [k] accepts what follows. *)
Fixpoint matches (r : regex) (pos : nat) (s : list ascii)
    (k : nat -> list ascii -> bool) : bool :=
  match r with
  | Empty => k pos s
  | Lit c =>
      match s with
      | x :: s' => Ascii.eqb x c && k (S pos) s'
      | [] => false
      end
  | AnyChar =>
      match s with
      | x :: s' => negb (Ascii.eqb x Str.newline) && k (S pos) s'
      | [] => false
      end
  | InSet negate ranges =>
      match s with
      | x :: s' => xorb negate (existsb (in_range x) ranges) && k (S pos) s'
      | [] => false
      end
  | Bol => (pos =? 0)%nat && k pos s
  | Eol =>
      match s with
      | [] => k pos s
      | [x] => Ascii.eqb x Str.newline && k pos s
      | _ => false
      end
  | Cat r1 r2 => matches r1 pos s (fun pos' s' => matches r2 pos' s' k)
  | Alt r1 r2 => matches r1 pos s k || matches r2 pos s k
  | Star r1 =>
      (fix iterate (fuel : nat) (pos : nat) (s : list ascii) : bool :=
         k pos s
         || match fuel with
            | O => false
            | S fuel =>
                matches r1 pos s
                  (fun pos' s' =>
                     (List.length s' <? List.length s)%nat && iterate fuel pos' s')
            end) (List.length s) pos s
  end.

Fixpoint search_from (r : regex) (pos : nat) (s : list ascii) : bool :=
  matches r pos s (fun _ _ => true)
  || match s with
     | [] => false
     | _ :: s' => search_from r (S pos) s'
     end.

(** [re.search(pattern, s) is not None], [None] for a pattern that is not
    parsed. *)
Definition search (pattern s : string) : option bool :=
  match parse pattern with
  | Some r => Some (search_from r 0 (list_ascii_of_string s))
  | None => None
  end.

(** Whether [pattern] has a match that spans the whole of [s]. *)
Definition fullmatch (pattern s : string) : option bool :=
  match parse pattern with
  | Some r =>
      Some (matches r 0 (list_ascii_of_string s)
              (fun _ rest => match rest with [] => true | _ => false end))
  | None => None
  end.

End re.

(** ** Sample resources and requests *)

Module Sample.

(** A runtime for the examples: [re_search] is the fragment of [re] above;
    the digest and the date format are stand-ins for [hashlib.md5] and the
    HTTP-date of webob. *)
Definition runtime : Runtime :=
  {| md5_hexdigest := fun data => "md5:" +:+ data;
     http_date := fun t => "date:" +:+ pretty t;
     re_search := re.search |}.

(** A request with no body, no parameter and no conditional header. *)
Definition request_env (verb path : string) : Environ :=
  {| PATH_INFO := path;
     REQUEST_METHOD := verb;
     HTTP_CONTENT_MD5 := None;
     wsgi_input := "";
     QUERY := ∅;
     FORM := ∅;
     HTTP_IF_MATCH := AnyETag;
     HTTP_IF_NONE_MATCH := NoETag;
     HTTP_IF_MODIFIED_SINCE := None;
     HTTP_IF_UNMODIFIED_SINCE := None |}.

(** [GET /document/12] with [If-None-Match: abc] (between quotes). *)
Definition conditional_get : Environ :=
  {| PATH_INFO := "/document/12";
     REQUEST_METHOD := "GET";
     HTTP_CONTENT_MD5 := None;
     wsgi_input := "";
     QUERY := ∅;
     FORM := ∅;
     HTTP_IF_MATCH := AnyETag;
     HTTP_IF_NONE_MATCH := ETagMatcher ["abc"];
     HTTP_IF_MODIFIED_SINCE := None;
     HTTP_IF_UNMODIFIED_SINCE := None |}.

(** [GET /document/12] with [If-Unmodified-Since] at time 500. *)
Definition unmodified_since_get : Environ :=
  {| PATH_INFO := "/document/12";
     REQUEST_METHOD := "GET";
     HTTP_CONTENT_MD5 := None;
     wsgi_input := "";
     QUERY := ∅;
     FORM := ∅;
     HTTP_IF_MATCH := AnyETag;
     HTTP_IF_NONE_MATCH := NoETag;
     HTTP_IF_MODIFIED_SINCE := None;
     HTTP_IF_UNMODIFIED_SINCE := Some 500 |}.

(** [POST /store] with the body [hello] and [Content-MD5: deadbeef]. *)
Definition corrupted_post : Environ :=
  {| PATH_INFO := "/store";
     REQUEST_METHOD := "POST";
     HTTP_CONTENT_MD5 := Some "deadbeef";
     wsgi_input := "hello";
     QUERY := ∅;
     FORM := ∅;
     HTTP_IF_MATCH := AnyETag;
     HTTP_IF_NONE_MATCH := NoETag;
     HTTP_IF_MODIFIED_SINCE := None;
     HTTP_IF_UNMODIFIED_SINCE := None |}.

(** The same request with a query string. *)
Definition with_query (environ : Environ) (query : gmap string string) : Environ :=
  {| PATH_INFO := PATH_INFO environ;
     REQUEST_METHOD := REQUEST_METHOD environ;
     HTTP_CONTENT_MD5 := HTTP_CONTENT_MD5 environ;
     wsgi_input := wsgi_input environ;
     QUERY := query;
     FORM := FORM environ;
     HTTP_IF_MATCH := HTTP_IF_MATCH environ;
     HTTP_IF_NONE_MATCH := HTTP_IF_NONE_MATCH environ;
     HTTP_IF_MODIFIED_SINCE := HTTP_IF_MODIFIED_SINCE environ;
     HTTP_IF_UNMODIFIED_SINCE := HTTP_IF_UNMODIFIED_SINCE environ |}.

(** A method [def name(self): return v] without validation rules. *)
Definition constant (v : value) : Method :=
  mkMethod ["self"] None None (fun _ => Ret v).

(** [class Hello(Resource)] with [def GET(self): return 'hello']. *)
Definition Hello : Instance :=
  mkInstance [("GET", Callable (constant (VStr "hello")))].

(** [class Tagged(Resource)] with [GET] and [def get_etag(self): return v]. *)
Definition Tagged (v : value) : Instance :=
  mkInstance [("GET", Callable (constant (VStr "hello")));
              ("get_etag", Callable (constant v))].

(** [class Store(Resource)] with [POST] and [PUT] and a helper method. *)
Definition Store : Instance :=
  mkInstance [("POST", Callable (constant (VStr "created")));
              ("PUT", Callable (constant (VStr "stored")));
              ("_lookup", Callable (constant VNone));
              ("name", Plain (VStr "store"))].

(** [GET(self, format)] decorated with the rule [re='json|xml'] for
    [format]. *)
Definition export_GET : Method :=
  mkMethod ["self"; "format"]
    (Some {["format" := ({["re" := Some "json|xml"; "doc" := None]} : Rules)]})
    None
    (fun params => Ret (VStr "exported")).

(** [class Export(Resource)] with that [GET]. *)
Definition Export : Instance :=
  mkInstance [("GET", Callable export_GET)].

(** [GET(self, id)] decorated with the rule [re='[0-9]+'] for [id]. *)
Definition item_GET : Method :=
  mkMethod ["self"; "id"]
    (Some {["id" := ({["re" := Some "[0-9]+"; "doc" := None]} : Rules)]})
    None
    (fun params => Ret (VStr "item")).

(** [class Item(Resource)] with that [GET]. *)
Definition Item : Instance :=
  mkInstance [("GET", Callable item_GET)].

(** [class Document(Resource)]: [GET(self, id, request)] with the rule
    [re='[0-9]+'] for [id], declared on the class; an ETag and a
    modification date; [GET] answers with its own [ETag] header. *)
Definition Document : Instance :=
  let rules : gmap string Rules :=
    {["id" := ({["re" := Some "[0-9]+"; "doc" := None]} : Rules)]} in
  mkInstance
    [("GET", Callable
        (mkMethod ["self"; "id"; "request"] None (Some rules)
           (fun params =>
              Ret (VMini (VStr "document")
                     (Some {["ETag" := Some "custom"]})))));
     ("get_etag", Callable
        (mkMethod ["self"; "id"] None (Some rules)
           (fun params => Ret (VStr "abc"))));
     ("get_last_modified", Callable
        (mkMethod ["self"; "id"] None (Some rules)
           (fun params => Ret (VDate 1000))))].

(** [def GET(self, request, a, b, c, d)] without validation rules. *)
Definition search_GET : Method :=
  mkMethod ["self"; "request"; "a"; "b"; "c"; "d"] None None
    (fun params => Ret VNone).

(** [class Search(Resource)] with that [GET]. *)
Definition Search : Instance :=
  mkInstance [("GET", Callable search_GET)].

(** [POST /search/path-a?a=query-a&b=query-b] with the form body
    [a=form-a&b=form-b&c=form-c]. *)
Definition search_env : Environ :=
  {| PATH_INFO := "/search/path-a";
     REQUEST_METHOD := "GET";
     HTTP_CONTENT_MD5 := None;
     wsgi_input := "a=form-a&b=form-b&c=form-c";
     QUERY := {["a" := "query-a"; "b" := "query-b"]};
     FORM := {["a" := "form-a"; "b" := "form-b"; "c" := "form-c"]};
     HTTP_IF_MATCH := AnyETag;
     HTTP_IF_NONE_MATCH := NoETag;
     HTTP_IF_MODIFIED_SINCE := None;
     HTTP_IF_UNMODIFIED_SINCE := None |}.

(** [GET /document/12] with [If-Match: old] (between quotes). *)
Definition if_match_old : Environ :=
  {| PATH_INFO := "/document/12";
     REQUEST_METHOD := "GET";
     HTTP_CONTENT_MD5 := None;
     wsgi_input := "";
     QUERY := ∅;
     FORM := ∅;
     HTTP_IF_MATCH := ETagMatcher ["old"];
     HTTP_IF_NONE_MATCH := NoETag;
     HTTP_IF_MODIFIED_SINCE := None;
     HTTP_IF_UNMODIFIED_SINCE := None |}.


(** [GET(self, first, last, step)] with the rule [re='[0-9]+'] for each of
    the three parameters. *)
Definition range_GET : Method :=
  let digits : Rules := {["re" := Some "[0-9]+"; "doc" := None]} in
  mkMethod ["self"; "first"; "last"; "step"]
    (Some {["first" := digits; "last" := digits; "step" := digits]})
    None
    (fun params => Ret (VStr "range")).

Definition app : Application :=
  mkApplication
    (fun path =>
       if String.eqb path "/hello" then Some (∅, Hello)
       else if String.eqb path "/store" then Some (∅, Store)
       else if String.eqb path "/export" then Some (∅, Export)
       else if String.eqb path "/item" then Some (∅, Item)
       else if String.eqb path "/document" then Some (∅, Document)
       else if String.eqb path "/document/12"
         then Some ({["id" := "12"]}, Document)
       else if String.eqb path "/search/path-a"
         then Some ({["a" := "path-a"]}, Search)
       else None).

End Sample.

(** ** The decisions of the conditional evaluator, in the words of the
    specification *)

(** [tag] is among the entity tags a matcher stands for. *)
Definition etag_in (tag : string) (matcher : etag_matcher) : Prop :=
  match matcher with
  | AnyETag => True
  | NoETag => False
  | ETagMatcher etags => tag ∈ etags
  end.

#[global] Instance etag_in_dec (tag : string) (matcher : etag_matcher) :
  Decision (etag_in tag matcher).
Proof. destruct matcher; simpl; apply _. Defined.

(** ETag precondition: not among If-Match, 412; else among If-None-Match,
    304 for GET and HEAD and 412 for any other verb; else proceed. *)
Definition spec_etag_decision (request : Request) (tag : string) : Z :=
  if decide (¬ etag_in tag (webob.if_match request)) then 412
  else if decide (etag_in tag (webob.if_none_match request)) then
    (if decide (webob.method request = "GET" ∨ webob.method request = "HEAD")
     then 304 else 412)
  else 0.

(** If-Modified-Since is present and the timestamp is at most it. *)
Definition not_modified_since (request : Request) (t : Z) : Prop :=
  match webob.if_modified_since request with
  | Some since => t <= since
  | None => False
  end.

(** If-Unmodified-Since is present and the timestamp is greater than it. *)
Definition modified_after (request : Request) (t : Z) : Prop :=
  match webob.if_unmodified_since request with
  | Some since => t > since
  | None => False
  end.

#[global] Instance not_modified_since_dec (request : Request) (t : Z) :
  Decision (not_modified_since request t).
Proof. unfold not_modified_since. destruct (webob.if_modified_since request); apply _. Defined.

#[global] Instance modified_after_dec (request : Request) (t : Z) :
  Decision (modified_after request t).
Proof. unfold modified_after. destruct (webob.if_unmodified_since request); apply _. Defined.

(** Last-Modified precondition: an absent timestamp proceeds. *)
Definition spec_last_modified_decision (request : Request)
    (last_modified : option Z) : Z :=
  match last_modified with
  | None => 0
  | Some t =>
      if decide (not_modified_since request t) then 304
      else if decide (modified_after request t) then 412
      else 0
  end.

(** The Last-Modified precondition counts only when the ETag precondition
    made no decision. *)
Definition spec_decision (request : Request) (etag : option string)
    (last_modified : option Z) : Z :=
  let etag_decision :=
    match etag with
    | Some etag => spec_etag_decision request (Str.strip_quotes etag)
    | None => 0
    end in
  if decide (etag_decision = 0)
  then spec_last_modified_decision request last_modified
  else etag_decision.

(** The response of a decision: 304 and 412 end the request, 0 lets it
    proceed. *)
Definition short_circuit (decision : Z) (headers : Headers) : option Response :=
  if decide (decision = 304) then
    Some (mkResponse BNone None 304 (Fresh headers) None)
  else if decide (decision = 412) then
    Some (mkResponse (BError "Precondition failed") None 412 (Fresh headers) None)
  else None.

(** A timestamp, or its absence, as a Python value. *)
Definition date_value (last_modified : option Z) : value :=
  match last_modified with
  | Some t => VDate t
  | None => VNone
  end.

(** The Content-MD5 header, when there is one, is the digest of the body. *)
Definition content_md5_ok {runtime : Runtime} (environ : Environ) : Prop :=
  match HTTP_CONTENT_MD5 environ with
  | Some content_md5 => md5_hexdigest (wsgi_input environ) = content_md5
  | None => True
  end.

(** ** Method resolution, in the words of the specification *)

(** The instance exposes a callable capability of that name. *)
Definition exposes (instance : Instance) (name : string) : Prop :=
  exists m, getattr instance name = Some (Callable m).

#[global] Instance exposes_dec (instance : Instance) (name : string) :
  Decision (exposes instance name).
Proof.
  unfold exposes. destruct (getattr instance name) as [[m|v]|].
  - left. now exists m.
  - right. intros [m H]. discriminate.
  - right. intros [m H]. discriminate.
Defined.

(** A name shaped like a verb: its upper-case form is itself. *)
Definition verb_shaped (name : string) : Prop := Str.upper name = name.

(** The exposed verb-handlers, in the order of [dir]. *)
Definition verb_handlers (instance : Instance) : list string :=
  filter (fun name => verb_shaped name /\ exposes instance name) (dir instance).

Definition recognized_verbs : list string :=
  ["OPTIONS"; "GET"; "HEAD"; "POST"; "PUT"; "DELETE"; "TRACE"; "CONNECT"].

(** The answer to a verb without handler: 405 for a recognized verb and
    501 otherwise, with the exposed verb-handlers in the Allow header. *)
Definition method_not_allowed_response {runtime : Runtime} (instance : Instance)
    (path_params : gmap string string) (environ : Environ) (w : World) : Prop :=
  exists response w',
    _call_resource instance path_params environ w = (Ret response, w')
    /\ status response
       = (if decide (REQUEST_METHOD environ ∈ recognized_verbs) then 405 else 501)
    /\ deref w' (headers response) !! "Allow"
       = Some (Some (Str.join ", " (verb_handlers instance))).

(** ** Parameter binding, in the words of the specification *)

(** The value bound to a declared parameter name: the request itself for
    [request]; else the path parameter; else the query parameter; else the
    form-body parameter; else [None]. *)
Inductive bound_to (path_params : gmap string string) (request : Request)
    (name : string) : value -> Prop :=
| bound_request :
    name = "request" ->
    bound_to path_params request name (VRequest request)
| bound_path (v : string) :
    name ≠ "request" ->
    path_params !! name = Some v ->
    bound_to path_params request name (VStr v)
| bound_query (v : string) :
    name ≠ "request" ->
    path_params !! name = None ->
    webob.GET request !! name = Some v ->
    bound_to path_params request name (VStr v)
| bound_form (v : string) :
    name ≠ "request" ->
    path_params !! name = None ->
    webob.GET request !! name = None ->
    webob.POST request !! name = Some v ->
    bound_to path_params request name (VStr v)
| bound_none :
    name ≠ "request" ->
    path_params !! name = None ->
    webob.GET request !! name = None ->
    webob.POST request !! name = None ->
    bound_to path_params request name VNone.

(** ** What the handler returned *)

(** The headers the handler supplied: those of a [MiniResponse], none for
    a plain body. *)
Definition supplied_headers (result : value) : Headers :=
  match result with
  | VMini _ (Some headers) => headers
  | _ => ∅
  end.

(** The body the handler supplied. *)
Definition supplied_body (result : value) : value :=
  match result with
  | VMini body _ => body
  | _ => result
  end.

(** ** The entry point *)

(** The request is answered: the entry point returns a response. *)
Definition answered {runtime : Runtime} (self : Application) (environ : Environ)
    (w : World) : Prop :=
  exists response w', __call__ self environ w = (Ret response, w').

(** ** The default header dicts *)

(** Two states hold the same default header dicts. *)
Definition same_defaults (w w' : World) : Prop :=
  forall slot, slot_dict w' slot = slot_dict w slot.

(** What serving a request may do to the default dict of the 405 or the
    501 helper: nothing, or an [Allow] entry written into it. *)
Definition allow_written (d d' : Headers) : Prop :=
  d' = d \/ exists allow, d' = <["Allow" := Some allow]> d.

(** ** Validation rules *)

(** The pattern a rule set imposes: the value under ['re'] when it is a
    non-empty string. *)
Definition rule_pattern (rules : Rules) : option string :=
  match rules !! "re" with
  | Some (Some pattern) => if Str.truthy pattern then Some pattern else None
  | _ => None
  end.

(** ** Entity tags and default headers *)

(** The number of double quotes in a string. *)
Fixpoint quotes_in (s : string) : nat :=
  match s with
  | EmptyString => O
  | String c s' =>
      if Ascii.eqb c Str.dquote then S (quotes_in s') else quotes_in s'
  end.

(** The default headers whose value is true as a Python value. *)
Definition present_defaults (default_headers : Headers) : Headers :=
  filter (fun entry => truthy_opt (snd entry) = true) default_headers.

(** ** Requests in sequence *)


(** The state after the application has served the requests one after the
    other, whether they ended with a response or an exception. *)
Fixpoint serve_all {runtime : Runtime} (self : Application)
    (requests : list Environ) (w : World) : World :=
  match requests with
  | [] => w
  | environ :: rest => serve_all self rest (snd (__call__ self environ w))
  end.

(** A default dict holds nothing but, possibly, an [Allow] entry. *)
Definition only_allow (d : Headers) : Prop :=
  forall key, key ≠ "Allow" -> d !! key = None.

(** * Properties *)

Section Properties.
Context {runtime : Runtime}.

(** ** Strings *)

Lemma truthy_nonempty (s : string) : Str.truthy s = true <-> s ≠ "".
Proof. destruct s; simpl; split; congruence. Qed.

Lemma append_nil (t : string) : "" +:+ t = t.
Proof. reflexivity. Qed.

Lemma append_cons (c : ascii) (s t : string) :
  String c s +:+ t = String c (s +:+ t).
Proof. reflexivity. Qed.

Lemma strip_quotes_app (s1 s2 : string) :
  Str.strip_quotes (s1 +:+ s2) = Str.strip_quotes s1 +:+ Str.strip_quotes s2.
Proof.
  induction s1 as [|c s1 IH]; [reflexivity|].
  rewrite append_cons. simpl.
  destruct (Ascii.eqb c Str.dquote); [assumption|].
  now rewrite append_cons, IH.
Qed.

Lemma strip_quotes_idem (s : string) :
  Str.strip_quotes (Str.strip_quotes s) = Str.strip_quotes s.
Proof.
  induction s as [|c s IH]; simpl; [reflexivity|].
  destruct (Ascii.eqb c Str.dquote) eqn:E; simpl; [assumption|].
  now rewrite E, IH.
Qed.

Lemma append_empty_r (s : string) : s +:+ "" = s.
Proof. induction s as [|c s IH]; [reflexivity|]. now rewrite append_cons, IH. Qed.

(** The tag compared with the request is the raw value without its
    quotes. *)
Lemma strip_quotes_quoted (s : string) :
  Str.strip_quotes (Str.quote +:+ Str.strip_quotes s +:+ Str.quote)
  = Str.strip_quotes s.
Proof.
  rewrite !strip_quotes_app, strip_quotes_idem.
  change (Str.strip_quotes Str.quote) with "".
  now rewrite append_nil, append_empty_r.
Qed.

Lemma member_elem_of (x : string) (l : list string) :
  Str.member x l = true <-> x ∈ l.
Proof.
  unfold Str.member. rewrite existsb_exists. split.
  - intros (y & Hin & Heq). apply String.eqb_eq in Heq. subst.
    now apply list_elem_of_In.
  - intros Hin. exists x. split; [now apply list_elem_of_In|apply String.eqb_refl].
Qed.

Lemma contains_etag_in (matcher : etag_matcher) (tag : string) :
  webob.contains matcher tag = true <-> etag_in tag matcher.
Proof.
  destruct matcher; simpl; [tauto|split; [discriminate|tauto]|apply member_elem_of].
Qed.

(** ** The ETag precondition *)

Lemma handle_condition_etag_spec (request : Request) (etag : string) :
  etag ≠ "" ->
  _handle_condition_etag request (Some etag)
  = spec_etag_decision request (Str.strip_quotes etag).
Proof.
  intros Hne. apply truthy_nonempty in Hne.
  unfold _handle_condition_etag, spec_etag_decision. rewrite Hne. simpl.
  set (tag := Str.strip_quotes etag).
  pose proof (contains_etag_in (webob.if_match request) tag) as Hm.
  pose proof (contains_etag_in (webob.if_none_match request) tag) as Hn.
  destruct (webob.contains (webob.if_match request) tag); simpl.
  - destruct (decide (¬ etag_in tag (webob.if_match request))) as [Hc|_];
      [exfalso; apply Hc, Hm; reflexivity|].
    destruct (webob.contains (webob.if_none_match request) tag).
    + destruct (decide (etag_in tag (webob.if_none_match request))) as [_|Hc];
        [|exfalso; apply Hc, Hn; reflexivity].
      destruct (String.eqb_spec (webob.method request) "GET") as [Hg|Hg].
      * destruct (decide _) as [_|Hc]; [reflexivity|]. exfalso; apply Hc; now left.
      * destruct (String.eqb_spec (webob.method request) "HEAD") as [Hh|Hh]; simpl.
        -- destruct (decide _) as [_|Hc]; [reflexivity|]. exfalso; apply Hc; now right.
        -- destruct (decide _) as [[Hc|Hc]|_]; [contradiction|contradiction|reflexivity].
    + destruct (decide (etag_in tag (webob.if_none_match request))) as [Hc|_];
        [apply Hn in Hc; discriminate|reflexivity].
  - destruct (decide (¬ etag_in tag (webob.if_match request))) as [_|Hc];
      [reflexivity|].
    exfalso. apply Hc. intros Hin. apply Hm in Hin. discriminate.
Qed.

(** ** Computing the ETag *)

Lemma get_etag_some (instance : Instance) (path_params : gmap string string)
    (request : Request) (w w' : World) (etag : string) :
  _get_etag instance path_params request w = (Ret (Some etag), w') ->
  exists v, v ≠ ""
    /\ _call_dynamic_method instance "get_etag" path_params request w
       = (Ret (VStr v), w')
    /\ etag = Str.quote +:+ Str.strip_quotes v +:+ Str.quote.
Proof.
  unfold _get_etag.
  destruct (hasattr instance "get_etag"); simpl; [|discriminate].
  unfold bind.
  destruct (_call_dynamic_method instance "get_etag" path_params request w)
    as [[retval|e] w1]; [|discriminate].
  destruct retval as [|s|t|r|b h]; simpl; try discriminate.
  destruct s as [|c s]; simpl; [discriminate|].
  intros H. injection H as <- <-. eexists. repeat split. discriminate.
Qed.

Lemma quoted_nonempty (s : string) : Str.quote +:+ s ≠ "".
Proof. discriminate. Qed.

(** ** The Last-Modified precondition *)

Lemma handle_condition_last_modified_spec (request : Request)
    (last_modified : option Z) (w : World) :
  _handle_condition_last_modified request (date_value last_modified) w
  = (Ret (match last_modified with
          | Some _ => Some (spec_last_modified_decision request last_modified)
          | None => None
          end), w).
Proof.
  destruct last_modified as [t|]; [|reflexivity].
  unfold _handle_condition_last_modified, spec_last_modified_decision,
    not_modified_since_dec, modified_after_dec, not_modified_since,
    modified_after, bind; simpl.
  destruct (webob.if_modified_since request) as [ims|]; simpl.
  - destruct (Z.leb_spec t ims); destruct (decide (t <= ims)); try lia;
      [reflexivity|].
    destruct (webob.if_unmodified_since request) as [ius|]; simpl; [|reflexivity].
    unfold Z.gtb. destruct (decide (t > ius)) as [Hgt|Hgt];
      destruct (t ?= ius) eqn:E; try reflexivity;
      unfold Z.gt in Hgt; congruence.
  - destruct (webob.if_unmodified_since request) as [ius|]; simpl; [|reflexivity].
    unfold Z.gtb. destruct (decide (t > ius)) as [Hgt|Hgt];
      destruct (t ?= ius) eqn:E; try reflexivity;
      unfold Z.gt in Hgt; congruence.
Qed.

Lemma spec_etag_decision_cases (request : Request) (tag : string) :
  spec_etag_decision request tag = 0
  \/ spec_etag_decision request tag = 304
  \/ spec_etag_decision request tag = 412.
Proof.
  unfold spec_etag_decision. repeat destruct (decide _); auto.
Qed.

Lemma spec_last_modified_decision_cases (request : Request)
    (last_modified : option Z) :
  spec_last_modified_decision request last_modified = 0
  \/ spec_last_modified_decision request last_modified = 304
  \/ spec_last_modified_decision request last_modified = 412.
Proof.
  unfold spec_last_modified_decision.
  destruct last_modified; repeat destruct (decide _); auto.
Qed.

Lemma spec_decision_cases (request : Request) (etag : option string)
    (last_modified : option Z) :
  spec_decision request etag last_modified = 0
  \/ spec_decision request etag last_modified = 304
  \/ spec_decision request etag last_modified = 412.
Proof.
  unfold spec_decision. destruct (decide _).
  - apply spec_last_modified_decision_cases.
  - destruct etag; [apply spec_etag_decision_cases|auto].
Qed.

Lemma serialize_date_value (last_modified : option Z) (w : World) :
  _serialize_date (date_value last_modified) w
  = (Ret (http_date <$> last_modified), w).
Proof. destruct last_modified; reflexivity. Qed.

(** The ETag precondition on what [_get_etag] returns. *)
Lemma handle_condition_etag_computed (instance : Instance)
    (path_params : gmap string string) (request : Request) (w w' : World)
    (etag : option string) :
  _get_etag instance path_params request w = (Ret etag, w') ->
  _handle_condition_etag request etag
  = match etag with
    | Some etag => spec_etag_decision request (Str.strip_quotes etag)
    | None => 0
    end.
Proof.
  destruct etag as [etag|]; [|reflexivity].
  intros H. apply get_etag_some in H as (v & _ & _ & ->).
  apply handle_condition_etag_spec, quoted_nonempty.
Qed.

(** ** Method resolution *)

Lemma callable_attr_exposes (instance : Instance) (name : string) :
  callable_attr instance name = true <-> exposes instance name.
Proof.
  unfold callable_attr, exposes.
  destruct (getattr instance name) as [[m|v]|]; split;
    try discriminate; try (intros [m' H]; discriminate); eauto.
Qed.

Lemma callable_attr_not_exposes (instance : Instance) (name : string) :
  callable_attr instance name = false <-> ¬ exposes instance name.
Proof.
  rewrite <- callable_attr_exposes.
  destruct (callable_attr instance name); split; congruence.
Qed.

(** [_resolve_method] finds nothing exactly when the verb has no handler
    and, for HEAD, GET has none either. *)
Lemma resolve_method_none (instance : Instance) (verb : string) :
  _resolve_method instance verb = None
  <-> ¬ exposes instance verb
      /\ (verb = "HEAD" -> ¬ exposes instance "GET").
Proof.
  unfold _resolve_method, resolve_method_body.
  rewrite <- !callable_attr_not_exposes.
  destruct (callable_attr instance verb); [split; [discriminate|intros [? _]; discriminate]|].
  destruct (String.eqb_spec verb "HEAD") as [->|Hne].
  - destruct (callable_attr instance "GET"); simpl.
    + split; [discriminate|]. intros [_ H]. now specialize (H eq_refl).
    + tauto.
  - tauto.
Qed.

(** [_resolve_method] returns the verb when it has a handler, and GET for
    a HEAD without handler of its own. *)
Lemma resolve_method_some (instance : Instance) (verb method : string) :
  _resolve_method instance verb = Some method
  <-> (exposes instance verb /\ method = verb)
      \/ (¬ exposes instance verb /\ verb = "HEAD"
          /\ exposes instance "GET" /\ method = "GET").
Proof.
  unfold _resolve_method, resolve_method_body.
  rewrite <- !callable_attr_not_exposes, <- !callable_attr_exposes.
  destruct (callable_attr instance verb).
  - split; [intros [= <-]; now left|]. intros [[_ ->]|[H _]]; congruence.
  - destruct (String.eqb_spec verb "HEAD") as [->|Hne].
    + destruct (callable_attr instance "GET"); simpl.
      * split; [intros [= <-]; right; tauto|].
        intros [[H _]|(_ & _ & _ & ->)]; congruence.
      * split; [discriminate|]. intros [[H _]|(_ & _ & H & _)]; congruence.
    + split; [discriminate|]. intros [[H _]|(_ & H & _)]; congruence.
Qed.

Lemma allowed_methods_verb_handlers (instance : Instance) :
  _get_allowed_methods instance = Str.join ", " (verb_handlers instance).
Proof.
  unfold _get_allowed_methods, verb_handlers. f_equal.
  induction (dir instance) as [|name names IH]; [reflexivity|].
  rewrite filter_cons. simpl. rewrite IH.
  destruct (decide (verb_shaped name /\ exposes instance name)) as [[Hu He]|Hno].
  - unfold verb_shaped in Hu. rewrite Hu, String.eqb_refl.
    apply callable_attr_exposes in He. now rewrite He.
  - destruct (String.eqb_spec (Str.upper name) name) as [Hu|Hu]; [|reflexivity].
    destruct (callable_attr instance name) eqn:Hc; [|reflexivity].
    exfalso. apply Hno. split; [exact Hu|now apply callable_attr_exposes].
Qed.

(** The Allow header names exactly the verb-shaped callable attributes. *)
Lemma elem_of_verb_handlers (instance : Instance) (name : string) :
  name ∈ verb_handlers instance
  <-> name ∈ dir instance /\ verb_shaped name /\ exposes instance name.
Proof. unfold verb_handlers. rewrite list_elem_of_filter. tauto. Qed.

Lemma member_recognized (verb : string) :
  Str.member verb
    ["OPTIONS"; "GET"; "HEAD"; "POST"; "PUT"; "DELETE"; "TRACE"; "CONNECT"]
  = bool_decide (verb ∈ recognized_verbs).
Proof.
  destruct (Str.member verb _) eqn:E.
  - symmetry. apply bool_decide_eq_true. now apply member_elem_of.
  - symmetry. apply bool_decide_eq_false. intros H.
    apply member_elem_of in H. unfold recognized_verbs in H. congruence.
Qed.

Lemma slot_dict_set_slot (w : World) (slot : Slot) (d : Headers) :
  slot_dict (set_slot w slot d) slot = d.
Proof. destruct slot; reflexivity. Qed.

Lemma call_resource_unresolved (instance : Instance)
    (path_params : gmap string string) (environ : Environ) (w : World) :
  _resolve_method instance (REQUEST_METHOD environ) = None ->
  method_not_allowed_response instance path_params environ w.
Proof.
  intros Hres. unfold method_not_allowed_response, _call_resource.
  cbv zeta. change (webob.method (webob_Request environ)) with (REQUEST_METHOD environ).
  rewrite Hres, member_recognized.
  destruct (decide (REQUEST_METHOD environ ∈ recognized_verbs)) as [Hin|Hin].
  - rewrite bool_decide_eq_true_2 by assumption.
    eexists _, _. split; [reflexivity|]. split; [reflexivity|]. simpl.
    rewrite lookup_insert_eq. now rewrite allowed_methods_verb_handlers.
  - rewrite bool_decide_eq_false_2 by assumption.
    eexists _, _. split; [reflexivity|]. split; [reflexivity|]. simpl.
    rewrite lookup_insert_eq. now rewrite allowed_methods_verb_handlers.
Qed.

Lemma call_dynamic_method_hasattr (instance : Instance) (name : string)
    (path_params : gmap string string) (request : Request) (w w' : World)
    (v : value) :
  _call_dynamic_method instance name path_params request w = (Ret v, w') ->
  hasattr instance name = true.
Proof.
  unfold _call_dynamic_method, hasattr.
  destruct (getattr instance name) as [[m|x]|]; [reflexivity|discriminate..].
Qed.

(** ** Validation and binding *)

(** Validation reads the state and leaves it as it is. *)
Lemma validate_param_world (method : Method) (param : string) (v : value)
    (w : World) :
  snd (_validate_param method param v w) = w.
Proof.
  unfold _validate_param.
  destruct (find_rules method param) as [rules|]; [|reflexivity].
  destruct v as [|s|t|r|b h]; try reflexivity.
  destruct (String.length s =? 0)%nat; [reflexivity|].
  destruct (rules !! "re") as [[pattern|]|]; try reflexivity.
  destruct (Str.truthy pattern); [|reflexivity].
  destruct (re_search _ s) as [[|]|]; reflexivity.
Qed.

(** Validation does not depend on the state. *)
Lemma validate_param_outcome (method : Method) (param : string) (v : value)
    (w w' : World) :
  fst (_validate_param method param v w) = fst (_validate_param method param v w').
Proof.
  unfold _validate_param.
  destruct (find_rules method param) as [rules|]; [|reflexivity].
  destruct v as [|s|t|r|b h]; try reflexivity.
  destruct (String.length s =? 0)%nat; [reflexivity|].
  destruct (rules !! "re") as [[pattern|]|]; try reflexivity.
  destruct (Str.truthy pattern); [|reflexivity].
  destruct (re_search _ s) as [[|]|]; reflexivity.
Qed.

(** A pattern rule on a non-empty value: validation succeeds exactly when
    [re.search] finds the pattern, put between [^] and [$], in the value. *)
Lemma validate_param_pattern (method : Method) (param : string) (rules : Rules)
    (pattern v : string) (w : World) :
  find_rules method param = Some rules ->
  rules !! "re" = Some (Some pattern) ->
  pattern ≠ "" ->
  v ≠ "" ->
  _validate_param method param (VStr v) w = (Ret tt, w)
  <-> re_search ("^" +:+ pattern +:+ "$") v = Some true.
Proof.
  intros Hrules Hre Hp Hv. unfold _validate_param. rewrite Hrules, Hre.
  apply truthy_nonempty in Hp. rewrite Hp.
  destruct v as [|c v]; [congruence|]. simpl.
  destruct (re_search _ _) as [[|]|]; split; intros H;
    try reflexivity; discriminate.
Qed.

Lemma bound_to_resolve_param (path_params : gmap string string)
    (request : Request) (name : string) :
  bound_to path_params request name (resolve_param path_params request name).
Proof.
  unfold resolve_param.
  destruct (String.eqb_spec name "request") as [->|Hne]; [now constructor|].
  destruct (path_params !! name) as [v|] eqn:Hpath; [now apply bound_path|].
  destruct (webob.GET request !! name) as [v|] eqn:Hget; [now apply bound_query|].
  destruct (webob.POST request !! name) as [v|] eqn:Hpost;
    [now apply bound_form|now apply bound_none].
Qed.

(** The precedence leaves no choice. *)
Lemma bound_to_unique (path_params : gmap string string) (request : Request)
    (name : string) (v : value) :
  bound_to path_params request name v ->
  v = resolve_param path_params request name.
Proof.
  unfold resolve_param. intros H.
  destruct H as [->|s Hne Hp|s Hne Hp Hg|s Hne Hp Hg Hf|Hne Hp Hg Hf];
    [reflexivity|..];
    (destruct (String.eqb_spec name "request"); [contradiction|]);
    rewrite Hp; try rewrite Hg; try rewrite Hf; reflexivity.
Qed.

(** The loop either binds every declared parameter, in order, or stops at
    a parameter that does not validate; it never changes the state. *)
Lemma bind_params_spec (method : Method) (path_params : gmap string string)
    (request : Request) (method_params : list string) (params : list value)
    (w : World) :
  let values := map (resolve_param path_params request) method_params in
  (Forall (fun param =>
             _validate_param method param
               (resolve_param path_params request param) w = (Ret tt, w))
          method_params
   /\ bind_params method path_params request method_params params w
      = (Ret (params ++ values), w))
  \/ (exists param e,
        param ∈ method_params
        /\ _validate_param method param
             (resolve_param path_params request param) w = (Raise e, w)
        /\ bind_params method path_params request method_params params w
           = (Raise e, w)).
Proof.
  revert params. induction method_params as [|param rest IH]; intros params; simpl.
  - left. split; [constructor|]. now rewrite app_nil_r.
  - unfold bind.
    pose proof (validate_param_world method param
                  (resolve_param path_params request param) w) as Hw.
    destruct (_validate_param method param
                (resolve_param path_params request param) w) as [[[]|e] w0] eqn:Hv;
      simpl in Hw; subst w0.
    + destruct (IH (params ++ [resolve_param path_params request param]))
        as [[Hall Hb]|(p & e & Hin & Hp & Hb)].
      * left. split; [now constructor|]. rewrite Hb. now rewrite <- app_assoc.
      * right. exists p, e. split; [now apply list_elem_of_further|]. now split.
    + right. exists param, e. split; [apply list_elem_of_here|]. now split.
Qed.

Lemma bound_to_unique_all (path_params : gmap string string) (request : Request)
    (names : list string) (args : list value) :
  Forall2 (bound_to path_params request) names args ->
  args = map (resolve_param path_params request) names.
Proof.
  induction 1 as [|name arg names args Hb _ IH]; [reflexivity|].
  simpl. now rewrite <- IH, <- (bound_to_unique _ _ _ _ Hb).
Qed.

(** ** The header merge *)

(** What the merge loop leaves under each key: the handler's value when it
    supplied one, else the default when that is true as a Python value. *)
Lemma merge_default_headers_lookup (default_headers supplied : Headers)
    (key : string) :
  merge_default_headers default_headers supplied !! key
  = match supplied !! key with
    | Some v => Some v
    | None =>
        match default_headers !! key with
        | Some v => if truthy_opt v then Some v else None
        | None => None
        end
    end.
Proof.
  unfold merge_default_headers.
  apply (map_fold_weak_ind
           (fun (r : Headers) (m : Headers) =>
              r !! key
              = match supplied !! key with
                | Some v => Some v
                | None =>
                    match m !! key with
                    | Some v => if truthy_opt v then Some v else None
                    | None => None
                    end
                end)).
  - rewrite lookup_empty. now destruct (supplied !! key).
  - intros i x m r Hfresh IH.
    destruct (decide (i = key)) as [->|Hne].
    + rewrite lookup_insert_eq. rewrite Hfresh in IH.
      destruct (truthy_opt x); simpl.
      * destruct (bool_decide_reflect (is_Some (r !! key))) as [Hs|Hs]; simpl.
        -- rewrite IH in Hs |- *. destruct (supplied !! key); [reflexivity|].
           now destruct Hs.
        -- rewrite lookup_insert_eq.
           destruct (supplied !! key) as [v|] eqn:E; [|reflexivity].
           exfalso. apply Hs. rewrite IH. eauto.
      * exact IH.
    + rewrite (lookup_insert_ne m i key x Hne).
      destruct (truthy_opt x && negb (bool_decide (is_Some (r !! i)))); [|exact IH].
      now rewrite lookup_insert_ne.
Qed.

(** When the conditional evaluator lets the request proceed, the default
    headers are the computed ETag and the serialised Last-Modified. *)
Lemma handle_conditions_proceed (instance : Instance)
    (path_params : gmap string string) (environ : Environ) (request : Request)
    (w w1 : World) (default_headers : Headers) :
  _handle_conditions instance path_params environ request w
  = (Ret (default_headers, None), w1) ->
  exists etag last_modified date w0 w0',
    _get_etag instance path_params request w = (Ret etag, w0)
    /\ _get_last_modified instance path_params request w0
       = (Ret last_modified, w0')
    /\ _serialize_date last_modified w0' = (Ret date, w0')
    /\ default_headers = <["ETag" := etag]> (<["Last-Modified" := date]> ∅).
Proof.
  unfold _handle_conditions.
  destruct (match HTTP_CONTENT_MD5 environ with
            | Some content_md5 => _
            | None => false
            end); [discriminate|].
  unfold bind.
  destruct (_get_etag instance path_params request w) as [[etag|e] w0] eqn:He;
    [|discriminate].
  destruct (_get_last_modified instance path_params request w0)
    as [[last_modified|e] w0'] eqn:Hl; [|discriminate].
  destruct (_serialize_date last_modified w0') as [[date|e] w2] eqn:Hdate;
    [|discriminate].
  assert (w2 = w0') as ->.
  { destruct last_modified; simpl in Hdate; injection Hdate; congruence. }
  intros H. exists etag, last_modified, date, w0, w0'.
  split; [reflexivity|]. split; [exact Hl|]. split; [exact Hdate|].
  destruct (_handle_condition_etag request etag =? 0).
  - destruct (_handle_condition_last_modified request last_modified w0')
      as [[[status|]|e] w3]; [| |discriminate].
    + destruct (status >? 0).
      * destruct (_get_response_ status instance environ _ w3) as [[r|e] w4];
          discriminate.
      * now injection H as <- <-.
    + now injection H as <- <-.
  - unfold ret in H at 1.
    destruct (_handle_condition_etag request etag >? 0).
    + destruct (_get_response_ _ instance environ _ w0') as [[r|e] w4];
        discriminate.
    + now injection H as <- <-.
Qed.

(** ** Short-circuit responses *)

Lemma handle_condition_etag_cases (request : Request) (etag : option string) :
  _handle_condition_etag request etag = 0
  \/ _handle_condition_etag request etag = 304
  \/ _handle_condition_etag request etag = 412.
Proof.
  unfold _handle_condition_etag. destruct etag as [etag|]; [|auto].
  destruct (Str.truthy etag); simpl; [|auto].
  destruct (webob.contains (webob.if_match request) (Str.strip_quotes etag));
    simpl; [|auto].
  destruct (webob.contains (webob.if_none_match request) (Str.strip_quotes etag));
    [|auto].
  destruct (String.eqb (webob.method request) "GET"); simpl; [auto|].
  destruct (String.eqb (webob.method request) "HEAD"); simpl; auto.
Qed.

Lemma handle_condition_last_modified_cases (request : Request)
    (last_modified : value) (w w' : World) (status : Z) :
  _handle_condition_last_modified request last_modified w
  = (Ret (Some status), w') ->
  status = 0 \/ status = 304 \/ status = 412.
Proof.
  unfold _handle_condition_last_modified, bind.
  destruct (truthy last_modified); simpl; [|discriminate].
  destruct (match webob.if_modified_since request with
            | Some since => date_le last_modified since
            | None => ret false
            end w) as [[[|]|e] w0]; [| |discriminate].
  - intros [= <- _]. auto.
  - destruct (match webob.if_unmodified_since request with
              | Some since => date_gt last_modified since
              | None => ret false
              end w0) as [[[|]|e] w1]; [| |discriminate];
      intros [= <- _]; auto.
Qed.

(** A response of the conditional evaluator has status 400, 304 or 412. *)
Lemma handle_conditions_response_status (instance : Instance)
    (path_params : gmap string string) (environ : Environ) (request : Request)
    (w w1 : World) (default_headers : Headers) (response : Response) :
  _handle_conditions instance path_params environ request w
  = (Ret (default_headers, Some response), w1) ->
  status response = 400 \/ status response = 304 \/ status response = 412.
Proof.
  unfold _handle_conditions.
  destruct (match HTTP_CONTENT_MD5 environ with
            | Some content_md5 => _
            | None => false
            end).
  { intros H. injection H as _ <- _. now left. }
  unfold bind.
  destruct (_get_etag instance path_params request w) as [[etag|e] w0];
    [|discriminate].
  destruct (_get_last_modified instance path_params request w0)
    as [[last_modified|e] w0']; [|discriminate].
  destruct (_serialize_date last_modified w0') as [[date|e] w2]; [|discriminate].
  destruct (handle_condition_etag_cases request etag) as [He|[He|He]];
    rewrite He; simpl.
  - destruct (_handle_condition_last_modified request last_modified w2)
      as [[[status|]|e] w3] eqn:Hlm; [| |discriminate].
    + destruct (handle_condition_last_modified_cases _ _ _ _ _ Hlm)
        as [-> | [-> | ->]]; simpl.
      * discriminate.
      * intros H. injection H as _ <- _. auto.
      * intros H. injection H as _ <- _. auto.
    + discriminate.
  - intros H. injection H as _ <- _. auto.
  - intros H. injection H as _ <- _. auto.
Qed.

Lemma bind_params_world (method : Method) (path_params : gmap string string)
    (request : Request) (method_params : list string) (params : list value)
    (w : World) :
  snd (bind_params method path_params request method_params params w) = w.
Proof.
  destruct (bind_params_spec method path_params request method_params params w)
    as [[_ H]|(param & e & _ & _ & H)]; now rewrite H.
Qed.

(** ** The default header dicts are touched by the 405 and 501 helpers
    only *)

Lemma same_defaults_refl (w : World) : same_defaults w w.
Proof. intros slot. reflexivity. Qed.

Lemma same_defaults_trans (w1 w2 w3 : World) :
  same_defaults w1 w2 -> same_defaults w2 w3 -> same_defaults w1 w3.
Proof. intros H12 H23 slot. now rewrite H23, H12. Qed.

Lemma same_defaults_log_call (w : World) (call : Call) :
  same_defaults w (log_call w call).
Proof. intros []; reflexivity. Qed.

Lemma call_dynamic_method_defaults (instance : Instance) (name : string)
    (path_params : gmap string string) (request : Request) (w : World) :
  same_defaults w (snd (_call_dynamic_method instance name path_params request w)).
Proof.
  unfold _call_dynamic_method.
  destruct (getattr instance name) as [[m|v]|]; try apply same_defaults_refl.
  unfold bind.
  pose proof (bind_params_world m path_params request (tail (argspec m)) [] w) as Hw.
  destruct (bind_params m path_params request (tail (argspec m)) [] w)
    as [[params|e] w0]; simpl in Hw; subst w0; simpl.
  - apply same_defaults_log_call.
  - apply same_defaults_refl.
Qed.

Lemma get_etag_defaults (instance : Instance) (path_params : gmap string string)
    (request : Request) (w : World) :
  same_defaults w (snd (_get_etag instance path_params request w)).
Proof.
  unfold _get_etag.
  destruct (hasattr instance "get_etag"); simpl; [|apply same_defaults_refl].
  unfold bind.
  pose proof (call_dynamic_method_defaults instance "get_etag" path_params
                request w) as Hw.
  destruct (_call_dynamic_method instance "get_etag" path_params request w)
    as [[retval|e] w0]; simpl in Hw; [|exact Hw].
  destruct (truthy retval); [|exact Hw].
  destruct retval; exact Hw.
Qed.

Lemma get_last_modified_defaults (instance : Instance)
    (path_params : gmap string string) (request : Request) (w : World) :
  same_defaults w (snd (_get_last_modified instance path_params request w)).
Proof.
  unfold _get_last_modified.
  destruct (hasattr instance "get_last_modified"); simpl;
    [apply call_dynamic_method_defaults|apply same_defaults_refl].
Qed.

Lemma serialize_date_world (dt : value) (w : World) :
  snd (_serialize_date dt w) = w.
Proof. destruct dt; reflexivity. Qed.

Lemma handle_condition_last_modified_world (request : Request)
    (last_modified : value) (w : World) :
  snd (_handle_condition_last_modified request last_modified w) = w.
Proof.
  unfold _handle_condition_last_modified, bind.
  destruct (truthy last_modified); simpl; [|reflexivity].
  destruct (webob.if_modified_since request) as [ims|];
    destruct (webob.if_unmodified_since request) as [ius|];
    destruct last_modified; simpl; try reflexivity;
    repeat match goal with
           | |- context [if ?b then _ else _] => destruct b; simpl
           end; reflexivity.
Qed.

(** With a dict of its own every status helper leaves the state alone. *)
Lemma get_response_fresh_world (status : Z) (instance : Instance)
    (environ : Environ) (d : Headers) (w : World) :
  snd (_get_response_ status instance environ (Fresh d) w) = w.
Proof.
  unfold _get_response_.
  repeat match goal with
         | |- context [if ?b then _ else _] => destruct b
         end; reflexivity.
Qed.

Lemma handle_conditions_defaults (instance : Instance)
    (path_params : gmap string string) (environ : Environ) (request : Request)
    (w : World) :
  same_defaults w (snd (_handle_conditions instance path_params environ request w)).
Proof.
  unfold _handle_conditions.
  destruct (match HTTP_CONTENT_MD5 environ with
            | Some content_md5 => _
            | None => false
            end); [apply same_defaults_refl|].
  unfold bind.
  pose proof (get_etag_defaults instance path_params request w) as H1.
  destruct (_get_etag instance path_params request w) as [[etag|e] w1];
    simpl in H1; [|exact H1].
  pose proof (get_last_modified_defaults instance path_params request w1) as H2.
  destruct (_get_last_modified instance path_params request w1)
    as [[last_modified|e] w2]; simpl in H2;
    [|eapply same_defaults_trans; eassumption].
  pose proof (serialize_date_world last_modified w2) as H3.
  destruct (_serialize_date last_modified w2) as [[date|e] w3];
    simpl in H3; subst w3; [|eapply same_defaults_trans; eassumption].
  assert (H12 : same_defaults w w2) by (eapply same_defaults_trans; eassumption).
  assert (Hresp : forall status w4, same_defaults w w4 ->
            same_defaults w
              (snd (let (o, w') :=
                      _get_response_ status instance environ
                        (Fresh (<["ETag" := etag]>
                                  (<["Last-Modified" := date]> ∅))) w4 in
                    match o return Outcome (Headers * option Response) * World with
                    | Ret a =>
                        ret (<["ETag" := etag]> (<["Last-Modified" := date]> ∅),
                             Some a) w'
                    | Raise e => (Raise e, w')
                    end))).
  { intros status w4 H4.
    pose proof (get_response_fresh_world status instance environ
                  (<["ETag" := etag]> (<["Last-Modified" := date]> ∅)) w4) as Hw.
    destruct (_get_response_ status instance environ _ w4) as [[r|e] w5];
      simpl in Hw; subst w5; exact H4. }
  destruct (_handle_condition_etag request etag =? 0).
  - pose proof (handle_condition_last_modified_world request last_modified w2) as H4.
    destruct (_handle_condition_last_modified request last_modified w2)
      as [[[status|]|e] w4]; simpl in H4; subst w4; try exact H12.
    destruct (status >? 0); [apply Hresp, H12|exact H12].
  - unfold ret at 1.
    destruct (_handle_condition_etag request etag >? 0);
      [apply Hresp, H12|exact H12].
Qed.

Lemma allow_written_same (w w' : World) (slot : Slot) :
  same_defaults w w' -> allow_written (slot_dict w slot) (slot_dict w' slot).
Proof. intros H. left. apply H. Qed.

(** What [_call_resource] does to the default dicts. *)
Lemma call_resource_defaults (res : Instance) (path_params : gmap string string)
    (environ : Environ) (w : World) :
  let w' := snd (_call_resource res path_params environ w) in
  headers_400 w' = headers_400 w
  /\ headers_404 w' = headers_404 w
  /\ allow_written (headers_405 w) (headers_405 w')
  /\ allow_written (headers_501 w) (headers_501 w').
Proof.
  assert (Hsame : forall w', same_defaults w w' ->
            headers_400 w' = headers_400 w
            /\ headers_404 w' = headers_404 w
            /\ allow_written (headers_405 w) (headers_405 w')
            /\ allow_written (headers_501 w) (headers_501 w')).
  { intros w' H. repeat split.
    - apply (H Default400).
    - apply (H Default404).
    - left. apply (H Default405).
    - left. apply (H Default501). }
  unfold _call_resource. cbv zeta.
  destruct (_resolve_method res (webob.method (webob_Request environ))).
  - apply Hsame. unfold bind.
    pose proof (handle_conditions_defaults res path_params environ
                  (webob_Request environ) w) as H1.
    destruct (_handle_conditions res path_params environ (webob_Request environ) w)
      as [[[default_headers [response|]]|e] w1]; simpl in H1 |- *; try exact H1.
    pose proof (call_dynamic_method_defaults res s path_params
                  (webob_Request environ) w1) as H2.
    destruct (_call_dynamic_method res s path_params (webob_Request environ) w1)
      as [[result|e] w2]; simpl in H2 |- *;
      eapply same_defaults_trans; eassumption.
  - destruct (Str.member _ _); simpl; repeat split;
      try (left; reflexivity); right; eexists; reflexivity.
Qed.

(** ** C1 *)

(** C1. When the ETag computed for the request is present, the ETag
    precondition is decided on the tag without its quotes: 412 when the tag
    is not among the If-Match set; otherwise, when it is among the
    If-None-Match set, 304 for GET and HEAD and 412 for any other verb;
    otherwise 0, and the request proceeds. *)
Theorem etag_precondition_decision (instance : Instance)
    (path_params : gmap string string) (request : Request) (w : World)
    (etag : string) :
  fst (_get_etag instance path_params request w) = Ret (Some etag) ->
  _handle_condition_etag request (Some etag)
  = spec_etag_decision request (Str.strip_quotes etag).
Proof.
  intros Hetag.
  destruct (_get_etag instance path_params request w) as [computed w'] eqn:E.
  simpl in Hetag. subst computed.
  apply get_etag_some in E as (v & Hv & Hcall & ->).
  rewrite handle_condition_etag_spec by apply quoted_nonempty.
  reflexivity.
Qed.

(** ** C2 *)

(** C2. The Last-Modified precondition counts only when the ETag
    precondition made no decision (status 0). Then an absent timestamp lets
    the request proceed; otherwise the decision is 304 when
    If-Modified-Since is present and the timestamp is at most it, else 412
    when If-Unmodified-Since is present and the timestamp is greater than
    it, else the request proceeds. The decision ends the request with the
    response of that status, carrying the two computed headers. *)
Theorem last_modified_precondition_decision (instance : Instance)
    (path_params : gmap string string) (environ : Environ) (request : Request)
    (w w1 w2 : World) (etag : option string) (last_modified : option Z) :
  content_md5_ok environ ->
  _get_etag instance path_params request w = (Ret etag, w1) ->
  _get_last_modified instance path_params request w1
  = (Ret (date_value last_modified), w2) ->
  let headers : Headers :=
    <["ETag" := etag]> (<["Last-Modified" := http_date <$> last_modified]> ∅) in
  _handle_conditions instance path_params environ request w
  = (Ret (headers,
          short_circuit (spec_decision request etag last_modified) headers),
     w2).
Proof.
  intros Hmd5 Hetag Hlm headers.
  unfold _handle_conditions.
  assert (Hmis : match HTTP_CONTENT_MD5 environ with
                 | Some content_md5 =>
                     negb (String.eqb (md5_hexdigest (wsgi_input environ)) content_md5)
                 | None => false
                 end = false).
  { unfold content_md5_ok in Hmd5.
    destruct (HTTP_CONTENT_MD5 environ); [|reflexivity].
    rewrite Hmd5, String.eqb_refl. reflexivity. }
  rewrite Hmis. unfold bind at 1. rewrite Hetag.
  unfold bind at 1. rewrite Hlm.
  unfold bind at 1. rewrite serialize_date_value.
  fold headers.
  rewrite (handle_condition_etag_computed _ _ _ _ _ _ Hetag).
  unfold spec_decision.
  set (d := match etag with
            | Some etag0 => spec_etag_decision request (Str.strip_quotes etag0)
            | None => 0
            end).
  assert (Hd : d = 0 \/ d = 304 \/ d = 412).
  { subst d. destruct etag; [apply spec_etag_decision_cases|auto]. }
  unfold bind.
  destruct Hd as [Hd|[Hd|Hd]]; rewrite Hd; simpl.
  - rewrite handle_condition_last_modified_spec.
    destruct last_modified as [t|]; [|reflexivity].
    destruct (spec_last_modified_decision_cases request (Some t)) as [H|[H|H]];
      rewrite H; reflexivity.
  - reflexivity.
  - reflexivity.
Qed.

(** ** C3 *)

(** C3, amended. When the instance exposes no handler for the request verb
    and, for a HEAD request, none for GET either, the response has status
    405 for a recognized verb (OPTIONS, GET, HEAD, POST, PUT, DELETE, TRACE,
    CONNECT) and 501 otherwise, and its Allow header is the list of the
    exposed verb-handlers joined with a comma and a space. *)
Theorem method_not_allowed (instance : Instance)
    (path_params : gmap string string) (environ : Environ) (w : World) :
  ¬ exposes instance (REQUEST_METHOD environ) ->
  (REQUEST_METHOD environ = "HEAD" -> ¬ exposes instance "GET") ->
  method_not_allowed_response instance path_params environ w.
Proof.
  intros Hverb Hhead. apply call_resource_unresolved, resolve_method_none.
  now split.
Qed.

(** ** C4 *)

(** C4. When the ETag capability yields a non-empty string [v], the
    computed ETag is a double quote, [v] without its double quotes, and a
    double quote; when the instance has no such capability, or the
    capability yields a false value, the ETag is absent. *)
Theorem etag_header_value (instance : Instance)
    (path_params : gmap string string) (request : Request) (w : World) :
  (hasattr instance "get_etag" = false ->
   _get_etag instance path_params request w = (Ret None, w))
  /\ (forall (v : value) (w' : World),
        _call_dynamic_method instance "get_etag" path_params request w
        = (Ret v, w') ->
        truthy v = false ->
        _get_etag instance path_params request w = (Ret None, w'))
  /\ (forall (v : string) (w' : World),
        _call_dynamic_method instance "get_etag" path_params request w
        = (Ret (VStr v), w') ->
        v ≠ "" ->
        _get_etag instance path_params request w
        = (Ret (Some (Str.quote +:+ Str.strip_quotes v +:+ Str.quote)), w')).
Proof.
  unfold _get_etag. repeat split.
  - intros ->. reflexivity.
  - intros v w' Hcall Hfalse.
    rewrite (call_dynamic_method_hasattr _ _ _ _ _ _ _ Hcall). simpl.
    unfold bind. rewrite Hcall, Hfalse. reflexivity.
  - intros v w' Hcall Hne.
    rewrite (call_dynamic_method_hasattr _ _ _ _ _ _ _ Hcall). simpl.
    unfold bind. rewrite Hcall. simpl.
    apply truthy_nonempty in Hne. rewrite Hne. reflexivity.
Qed.

(** ** C6 *)

(** C6. Every declared parameter of the handler (the receiver apart) is
    bound by the precedence request, path parameter, query parameter,
    form-body parameter, [None]; and the handler is called once, with the
    bound values in the order of the declaration, unless a value fails
    validation, in which case nothing is called. *)
Theorem call_dynamic_method_binding (instance : Instance) (name : string)
    (m : Method) (path_params : gmap string string) (request : Request)
    (w : World) :
  getattr instance name = Some (Callable m) ->
  exists args,
    Forall2 (bound_to path_params request) (tail (argspec m)) args
    /\ ((Forall2 (fun param arg =>
                    _validate_param m param arg w = (Ret tt, w))
                 (tail (argspec m)) args
         /\ _call_dynamic_method instance name path_params request w
            = (run m args, log_call w (name, args)))
        \/ (exists param arg e,
              bound_to path_params request param arg
              /\ param ∈ tail (argspec m)
              /\ _validate_param m param arg w = (Raise e, w)
              /\ _call_dynamic_method instance name path_params request w
                 = (Raise e, w))).
Proof.
  intros Hattr.
  exists (map (resolve_param path_params request) (tail (argspec m))).
  split.
  - apply Forall2_fmap_r, Forall_Forall2_diag, Forall_forall.
    intros param _. apply bound_to_resolve_param.
  - unfold _call_dynamic_method. rewrite Hattr. unfold bind.
    destruct (bind_params_spec m path_params request (tail (argspec m)) [] w)
      as [[Hall Hb]|(param & e & Hin & Hv & Hb)]; rewrite Hb.
    + left. split; [|reflexivity].
      apply Forall2_fmap_r, Forall_Forall2_diag. exact Hall.
    + right. exists param, (resolve_param path_params request param), e.
      split; [apply bound_to_resolve_param|]. now repeat split.
Qed.

(** ** C7 *)

(** C7. After a successful handler invocation the headers of the response
    are the handler's headers merged with the default headers ETag and
    Last-Modified: under a key the handler supplied its value stands; a
    default header the handler did not supply is present when its computed
    value is not absent (it is true as a Python value, which a computed ETag
    always is); and nothing else is in the response headers. *)
Theorem header_merge (instance : Instance) (path_params : gmap string string)
    (environ : Environ) (w w1 w2 : World) (method : string)
    (default_headers : Headers) (result : value) :
  _resolve_method instance (REQUEST_METHOD environ) = Some method ->
  _handle_conditions instance path_params environ (webob_Request environ) w
  = (Ret (default_headers, None), w1) ->
  _call_dynamic_method instance method path_params (webob_Request environ) w1
  = (Ret result, w2) ->
  exists final etag date,
    default_headers = <["ETag" := etag]> (<["Last-Modified" := date]> ∅)
    /\ _call_resource instance path_params environ w
       = (Ret (mkResponse (BValue (supplied_body result)) (Some method)
                 Response_default_status (Fresh final)
                 (path_params !! "_extension")), w2)
    /\ (forall key v,
          supplied_headers result !! key = Some v -> final !! key = Some v)
    /\ (forall key v,
          supplied_headers result !! key = None ->
          default_headers !! key = Some v ->
          truthy_opt v = true ->
          final !! key = Some v)
    /\ (forall key,
          is_Some (final !! key) ->
          is_Some (supplied_headers result !! key)
          \/ is_Some (default_headers !! key))
    /\ (is_Some etag -> truthy_opt etag = true).
Proof.
  intros Hres Hcond Hcall.
  destruct (handle_conditions_proceed _ _ _ _ _ _ _ Hcond)
    as (etag & last_modified & date & w0 & _ & Hetag & _ & _ & Hdefault).
  exists (merge_default_headers default_headers (supplied_headers result)),
    etag, date.
  split; [exact Hdefault|]. split.
  - unfold _call_resource. cbv zeta.
    change (webob.method (webob_Request environ)) with (REQUEST_METHOD environ).
    rewrite Hres. unfold bind. rewrite Hcond. cbn [fst snd]. rewrite Hcall.
    unfold ret.
    destruct result as [| | | |b [h|]]; simpl; try reflexivity.
    now destruct (bool_decide_reflect (h = ∅)) as [->|_].
  - repeat split.
    + intros key v Hs. now rewrite merge_default_headers_lookup, Hs.
    + intros key v Hs Hd Ht.
      now rewrite merge_default_headers_lookup, Hs, Hd, Ht.
    + intros key. rewrite merge_default_headers_lookup.
      destruct (supplied_headers result !! key); [left; eauto|].
      destruct (default_headers !! key); [right; eauto|].
      intros [? ?]. discriminate.
    + intros [tag ->]. apply get_etag_some in Hetag as (v & _ & _ & ->).
      reflexivity.
Qed.

(** ** C8 *)

(** C8, amended. A missing route, a missing handler, a Content-MD5
    mismatch and a failed precondition are turned into a response inside
    the pipeline (status 404; 405 or 501; 400, 304 or 412). An exception
    raised while the parameters of a resource method are bound, a
    ValidationException in particular, is not caught: it leaves
    [__call__] as it was raised, whether it comes from the conditional
    evaluator or from the binding of the handler's parameters, and in the
    latter case the handler is not called. *)
Theorem pipeline_failures (self : Application) (environ : Environ) (w : World) :
  let request := webob_Request environ in
  (_urlmap self (PATH_INFO environ) = None ->
   __call__ self environ w
   = (Ret (mkResponse (BError "not found") None 404 (Shared Default404) None), w))
  /\ (forall path_params res,
        _urlmap self (PATH_INFO environ) = Some (path_params, res) ->
        (_resolve_method res (REQUEST_METHOD environ) = None ->
         exists response w',
           __call__ self environ w = (Ret response, w')
           /\ (status response = 405 \/ status response = 501))
        /\ (forall method,
              _resolve_method res (REQUEST_METHOD environ) = Some method ->
              (forall default_headers response w1,
                 _handle_conditions res path_params environ request w
                 = (Ret (default_headers, Some response), w1) ->
                 __call__ self environ w = (Ret response, w1)
                 /\ (status response = 400 \/ status response = 304
                     \/ status response = 412))
              /\ (forall e w1,
                    _handle_conditions res path_params environ request w
                    = (Raise e, w1) ->
                    __call__ self environ w = (Raise e, w1))
              /\ (forall default_headers w1 m e w2,
                    _handle_conditions res path_params environ request w
                    = (Ret (default_headers, None), w1) ->
                    getattr res method = Some (Callable m) ->
                    bind_params m path_params request (tail (argspec m)) [] w1
                    = (Raise e, w2) ->
                    __call__ self environ w = (Raise e, w2) /\ w2 = w1))).
Proof.
  intros request. unfold __call__, _handle_request. split.
  - intros ->. reflexivity.
  - intros path_params res ->. split.
    + intros Hres.
      destruct (call_resource_unresolved res path_params environ w Hres)
        as (response & w' & Hcall & Hstatus & _).
      exists response, w'. unfold bind. rewrite Hcall. split; [reflexivity|].
      rewrite Hstatus. destruct (decide _); auto.
    + intros method Hres.
      assert (Hunfold : forall w0,
                 _call_resource res path_params environ w0
                 = bind (_handle_conditions res path_params environ request)
                     (fun conditions =>
                        match snd conditions with
                        | Some response => ret response
                        | None =>
                            bind (_call_dynamic_method res method path_params request)
                              (fun result =>
                                 ret (mkResponse
                                        (BValue (supplied_body result))
                                        (Some method) Response_default_status
                                        (Fresh (merge_default_headers
                                                  (fst conditions)
                                                  (match
                                                      match result with
                                                      | VMini _ headers => headers
                                                      | _ => None
                                                      end
                                                    with
                                                    | None => ∅
                                                    | Some headers =>
                                                        if bool_decide (headers = ∅)
                                                        then ∅ else headers
                                                    end)))
                                        (path_params !! "_extension")))
                        end) w0).
      { intros w0. unfold _call_resource. cbv zeta.
        change (webob.method (webob_Request environ)) with (REQUEST_METHOD environ).
        rewrite Hres. reflexivity. }
      split; [|split].
      * intros default_headers response w1 Hcond. split.
        -- unfold bind at 1. rewrite Hunfold. unfold bind at 1. rewrite Hcond.
           reflexivity.
        -- eapply handle_conditions_response_status, Hcond.
      * intros e w1 Hcond. unfold bind at 1. rewrite Hunfold. unfold bind at 1.
        rewrite Hcond. reflexivity.
      * intros default_headers w1 m e w2 Hcond Hattr Hbind. split.
        -- unfold bind at 1. rewrite Hunfold. unfold bind at 1. rewrite Hcond.
           simpl. unfold bind at 1. unfold _call_dynamic_method. rewrite Hattr.
           unfold bind at 1. rewrite Hbind. reflexivity.
        -- pose proof (bind_params_world m path_params request
                         (tail (argspec m)) [] w1) as Hw.
           rewrite Hbind in Hw. exact Hw.
Qed.

(** ** C9 *)

(** C9. When the request carries a Content-MD5 header that differs from
    the MD5 digest of the request body, the conditional evaluator answers
    with status 400 and the error message below before anything else: the
    state is unchanged, so neither the ETag nor the Last-Modified
    capability was called, and [_call_resource] returns that response
    without calling the handler. *)
Theorem content_md5_mismatch (instance : Instance)
    (path_params : gmap string string) (environ : Environ) (request : Request)
    (w : World) (content_md5 : string) :
  HTTP_CONTENT_MD5 environ = Some content_md5 ->
  md5_hexdigest (wsgi_input environ) ≠ content_md5 ->
  let response :=
    mkResponse
      (BError "The Content-MD5 request header does not match the body.")
      None 400 (Shared Default400) None in
  _handle_conditions instance path_params environ request w
  = (Ret (∅, Some response), w)
  /\ (forall method,
        _resolve_method instance (REQUEST_METHOD environ) = Some method ->
        _call_resource instance path_params environ w = (Ret response, w)).
Proof.
  intros Hheader Hdiff response.
  assert (Hcond : forall request,
             _handle_conditions instance path_params environ request w
             = (Ret (∅, Some response), w)).
  { intros request'. unfold _handle_conditions. rewrite Hheader.
    destruct (String.eqb_spec (md5_hexdigest (wsgi_input environ)) content_md5);
      [contradiction|reflexivity]. }
  split; [apply Hcond|].
  intros method Hres. unfold _call_resource. cbv zeta.
  change (webob.method (webob_Request environ)) with (REQUEST_METHOD environ).
  rewrite Hres. unfold bind. rewrite Hcond. reflexivity.
Qed.

(** ** C10 *)

(** C10. The dict that [_get_response_405] (and likewise
    [_get_response_501]) uses when it is called without [headers] is one
    object shared by all such calls: the response of each call refers to
    it; the [Allow] entry a call writes is in the dict the next call starts
    from, and the next call's entry shows through the headers of the
    earlier response. Across requests the dicts live on: serving a request
    leaves each of them as it was or with a new [Allow] entry, so an entry
    written while serving one request is still there in every later
    one. *)
Theorem default_headers_shared (self : Application)
    (instance1 instance2 : Instance) (environ1 environ2 environ : Environ)
    (w : World) :
  (exists r1 w1 r2 w2,
     _get_response_405 instance1 environ1 None w = (Ret r1, w1)
     /\ _get_response_405 instance2 environ2 None w1 = (Ret r2, w2)
     /\ headers r1 = Shared Default405
     /\ headers r2 = Shared Default405
     /\ deref w1 (headers r1)
        = <["Allow" := Some (_get_allowed_methods instance1)]> (headers_405 w)
     /\ deref w2 (headers r1)
        = <["Allow" := Some (_get_allowed_methods instance2)]>
            (deref w1 (headers r1)))
  /\ (exists r1 w1 r2 w2,
        _get_response_501 instance1 environ1 None w = (Ret r1, w1)
        /\ _get_response_501 instance2 environ2 None w1 = (Ret r2, w2)
        /\ headers r1 = Shared Default501
        /\ headers r2 = Shared Default501
        /\ deref w1 (headers r1)
           = <["Allow" := Some (_get_allowed_methods instance1)]> (headers_501 w)
        /\ deref w2 (headers r1)
           = <["Allow" := Some (_get_allowed_methods instance2)]>
               (deref w1 (headers r1)))
  /\ (let w' := snd (__call__ self environ w) in
      allow_written (headers_405 w) (headers_405 w')
      /\ allow_written (headers_501 w) (headers_501 w')
      /\ (is_Some (headers_405 w !! "Allow") -> is_Some (headers_405 w' !! "Allow"))
      /\ (is_Some (headers_501 w !! "Allow") -> is_Some (headers_501 w' !! "Allow"))).
Proof.
  split; [|split].
  - eexists _, _, _, _. repeat split.
  - eexists _, _, _, _. repeat split.
  - assert (Hkeep : forall d d' : Headers,
               allow_written d d' ->
               is_Some (d !! "Allow") -> is_Some (d' !! "Allow")).
    { intros d d' [->|[allow ->]] H; [exact H|].
      rewrite lookup_insert_eq. eauto. }
    assert (H : allow_written (headers_405 w)
                  (headers_405 (snd (__call__ self environ w)))
                /\ allow_written (headers_501 w)
                     (headers_501 (snd (__call__ self environ w)))).
    { unfold __call__, _handle_request, bind.
      destruct (_urlmap self (PATH_INFO environ)) as [[path_params res]|].
      - pose proof (call_resource_defaults res path_params environ w)
          as (_ & _ & H5 & H6).
        destruct (_call_resource res path_params environ w) as [[r|e] w'];
          simpl in *; now split.
      - simpl. split; left; reflexivity. }
    destruct H as [H5 H6]. cbv zeta. repeat split; eauto.
Qed.

(** ** Method resolution and the Allow header *)

(** [_resolve_method] returns the name of a callable attribute of the
    instance, whatever the shape of the verb: the verb itself exactly when
    the instance exposes it, and [GET] exactly for a HEAD without handler on
    an instance that exposes GET. *)
Theorem resolve_method_characterised (instance : Instance) (verb : string) :
  (exposes instance verb <-> _resolve_method instance verb = Some verb)
  /\ (forall method,
        _resolve_method instance verb = Some method ->
        exposes instance method /\ (method = verb \/ (verb = "HEAD" /\ method = "GET")))
  /\ (verb ≠ "HEAD" -> ¬ exposes instance verb ->
      _resolve_method instance verb = None).
Proof.
  split; [|split].
  - split.
    + intros H. apply resolve_method_some. now left.
    + intros H. apply resolve_method_some in H as [[H _]|(Hno & -> & Hget & Heq)];
        [exact H|]. discriminate.
  - intros method H. apply resolve_method_some in H
      as [[H ->]|(_ & -> & Hget & ->)]; split; auto.
  - intros Hne Hno. apply resolve_method_none. split; [exact Hno|]. contradiction.
Qed.

(** The Allow header of a 405 or 501 response is sound and leaves HEAD
    out: every name it lists is a verb the instance serves under that very
    name, the refused verb is not among them, and HEAD is not listed for an
    instance that serves it through GET only. *)
Theorem allowed_methods_sound (instance : Instance) :
  exists names,
    _get_allowed_methods instance = Str.join ", " names
    /\ (forall name, name ∈ names -> _resolve_method instance name = Some name)
    /\ (forall verb, _resolve_method instance verb = None -> verb ∉ names)
    /\ (¬ exposes instance "HEAD" -> exposes instance "GET" ->
        _resolve_method instance "HEAD" = Some "GET" /\ "HEAD" ∉ names).
Proof.
  exists (verb_handlers instance).
  split; [apply allowed_methods_verb_handlers|]. split; [|split].
  - intros name Hin. apply elem_of_verb_handlers in Hin as (_ & _ & He).
    apply resolve_method_some. now left.
  - intros verb Hnone Hin. apply elem_of_verb_handlers in Hin as (_ & _ & He).
    apply resolve_method_none in Hnone as [Hno _]. contradiction.
  - intros Hno Hget. split.
    + apply resolve_method_some. right. auto.
    + intros Hin. apply elem_of_verb_handlers in Hin as (_ & _ & He).
      contradiction.
Qed.

(** ** Validation *)

(** Validation passes in two cases only: no rule set is declared for the
    parameter, or the value is a non-empty string and the rule set has no
    pattern or [re.search] finds the pattern, between [^] and [$], in the
    value. In particular a rule set without pattern asks for a non-empty
    value and nothing more. *)
Theorem validate_param_passes (method : Method) (param : string) (v : value)
    (w : World) :
  _validate_param method param v w = (Ret tt, w)
  <-> find_rules method param = None
      \/ exists rules s,
           find_rules method param = Some rules
           /\ v = VStr s /\ s ≠ ""
           /\ match rule_pattern rules with
              | Some pattern => re_search ("^" +:+ pattern +:+ "$") s = Some true
              | None => True
              end.
Proof.
  unfold _validate_param, rule_pattern.
  destruct (find_rules method param) as [rules|]; [|split; auto].
  split.
  - intros H. right. exists rules.
    destruct v as [|s|t|r|b h]; try discriminate.
    exists s. destruct s as [|c s]; [discriminate|].
    repeat split; [discriminate|]. simpl in H.
    destruct (rules !! "re") as [[pattern|]|]; try exact I.
    destruct (Str.truthy pattern); [|exact I].
    destruct (re_search _ _) as [[|]|]; [reflexivity|discriminate..].
  - intros [H|(rules' & s & Hr & -> & Hs & Hp)]; [discriminate|].
    injection Hr as <-. destruct s as [|c s]; [congruence|]. simpl.
    destruct (rules !! "re") as [[pattern|]|]; try reflexivity.
    destruct (Str.truthy pattern); [|reflexivity].
    now rewrite Hp.
Qed.

(** A rule set declared on the method for a parameter hides the one of the
    class: the outcome of validation is the same whatever the class
    declares. *)
Theorem method_rules_hide_class_rules (argspec : list string)
    (method_rules : gmap string Rules) (class_rules class_rules' : option (gmap string Rules))
    (run : list value -> Outcome value) (param : string) (v : value) (w : World) :
  is_Some (method_rules !! param) ->
  _validate_param (mkMethod argspec (Some method_rules) class_rules run) param v w
  = _validate_param (mkMethod argspec (Some method_rules) class_rules' run) param v w.
Proof.
  intros [rules Hrules]. unfold _validate_param, find_rules. simpl.
  now rewrite Hrules.
Qed.

(** What a failed validation raises, never touching the state: for [None]
    and the empty string the complaint that the value must not be empty,
    whatever the pattern; for a non-empty string that the value does not
    validate, and then the rule set has a pattern that [re.search] did not
    find. *)
Theorem validate_param_failure (method : Method) (param : string) (v : value)
    (w w' : World) (msg : string) :
  _validate_param method param v w = (Raise (ValidationException msg), w') ->
  w' = w
  /\ exists rules,
       find_rules method param = Some rules
       /\ ((v = VNone \/ v = VStr "")
           /\ msg = "Value for " +:+ param +:+ " must not be empty."
           \/ exists s pattern,
                v = VStr s /\ s ≠ ""
                /\ rule_pattern rules = Some pattern
                /\ re_search ("^" +:+ pattern +:+ "$") s = Some false
                /\ msg = param +:+ " value " +:+ s +:+ " does not validate.").
Proof.
  intros H.
  pose proof (validate_param_world method param v w) as Hw.
  rewrite H in Hw. simpl in Hw. split; [exact Hw|]. clear Hw.
  unfold _validate_param in H. unfold rule_pattern.
  destruct (find_rules method param) as [rules|]; [|discriminate].
  exists rules. split; [reflexivity|].
  destruct v as [|s|t|r|b h]; try discriminate.
  - injection H as <- _. left. auto.
  - destruct s as [|c s]; simpl in H.
    + injection H as <- _. left. auto.
    + right. exists (String c s).
      destruct (rules !! "re") as [[pattern|]|]; try discriminate.
      destruct (Str.truthy pattern); [|discriminate].
      exists pattern.
      destruct (re_search _ _) as [[|]|]; try discriminate.
      injection H as <- _. repeat split. discriminate.
Qed.

(** Binding stops at the first declared parameter that does not validate:
    its exception is the one raised, and the parameters after it are not
    looked at. *)
Theorem bind_params_first_failure (method : Method)
    (path_params : gmap string string) (request : Request)
    (passing : list string) (failing : string) (rest : list string)
    (params : list value) (e : exn) (w : World) :
  Forall (fun param =>
            _validate_param method param
              (resolve_param path_params request param) w = (Ret tt, w))
         passing ->
  _validate_param method failing (resolve_param path_params request failing) w
  = (Raise e, w) ->
  bind_params method path_params request (passing ++ failing :: rest) params w
  = (Raise e, w).
Proof.
  intros Hpass Hfail. revert params.
  induction Hpass as [|param passing Hparam _ IH]; intros params; simpl.
  - unfold bind. now rewrite Hfail.
  - unfold bind. rewrite Hparam. apply IH.
Qed.

(** ** The order of the calls *)

(** A call of [_call_dynamic_method] adds at most one call to the trace,
    a call of the named attribute. *)
Lemma call_dynamic_method_calls (instance : Instance) (name : string)
    (path_params : gmap string string) (request : Request) (w : World) :
  exists trace,
    calls (snd (_call_dynamic_method instance name path_params request w))
    = calls w ++ trace
    /\ map fst trace `sublist_of` [name].
Proof.
  unfold _call_dynamic_method.
  destruct (getattr instance name) as [[m|v]|];
    try (exists []; split; [now rewrite app_nil_r|apply sublist_nil_l]).
  unfold bind.
  pose proof (bind_params_world m path_params request (tail (argspec m)) [] w) as Hw.
  destruct (bind_params m path_params request (tail (argspec m)) [] w)
    as [[params|e] w0]; simpl in Hw; subst w0; simpl.
  - exists [(name, params)]. split; reflexivity.
  - exists []. split; [now rewrite app_nil_r|apply sublist_nil_l].
Qed.

Lemma get_etag_calls (instance : Instance) (path_params : gmap string string)
    (request : Request) (w : World) :
  exists trace,
    calls (snd (_get_etag instance path_params request w)) = calls w ++ trace
    /\ map fst trace `sublist_of` ["get_etag"].
Proof.
  unfold _get_etag.
  destruct (hasattr instance "get_etag"); simpl;
    [|exists []; split; [now rewrite app_nil_r|apply sublist_nil_l]].
  unfold bind.
  pose proof (call_dynamic_method_calls instance "get_etag" path_params
                request w) as H.
  destruct (_call_dynamic_method instance "get_etag" path_params request w)
    as [[retval|e] w0]; simpl in H; [|exact H].
  destruct (truthy retval); [|exact H].
  destruct retval; exact H.
Qed.

Lemma get_last_modified_calls (instance : Instance)
    (path_params : gmap string string) (request : Request) (w : World) :
  exists trace,
    calls (snd (_get_last_modified instance path_params request w))
    = calls w ++ trace
    /\ map fst trace `sublist_of` ["get_last_modified"].
Proof.
  unfold _get_last_modified.
  destruct (hasattr instance "get_last_modified"); simpl;
    [apply call_dynamic_method_calls|].
  exists []. split; [now rewrite app_nil_r|apply sublist_nil_l].
Qed.

(** The conditional evaluator calls the two capabilities only, the ETag
    first. *)
Lemma handle_conditions_calls (instance : Instance)
    (path_params : gmap string string) (environ : Environ) (request : Request)
    (w : World) :
  exists trace,
    calls (snd (_handle_conditions instance path_params environ request w))
    = calls w ++ trace
    /\ map fst trace `sublist_of` ["get_etag"; "get_last_modified"].
Proof.
  unfold _handle_conditions.
  destruct (match HTTP_CONTENT_MD5 environ with
            | Some content_md5 => _
            | None => false
            end).
  { exists []. split; [now rewrite app_nil_r|apply sublist_nil_l]. }
  unfold bind.
  destruct (get_etag_calls instance path_params request w) as (t1 & H1 & S1).
  destruct (_get_etag instance path_params request w) as [[etag|e] w1];
    simpl in H1.
  2:{ exists t1. split; [exact H1|].
      change ["get_etag"; "get_last_modified"]
        with (["get_etag"] ++ ["get_last_modified"]).
      now apply sublist_inserts_r. }
  destruct (get_last_modified_calls instance path_params request w1)
    as (t2 & H2 & S2).
  assert (Hboth : map fst (t1 ++ t2)
                  `sublist_of` ["get_etag"; "get_last_modified"]).
  { rewrite map_app.
    change ["get_etag"; "get_last_modified"]
      with (["get_etag"] ++ ["get_last_modified"]).
    now apply sublist_app. }
  destruct (_get_last_modified instance path_params request w1)
    as [[last_modified|e] w2]; simpl in H2.
  2:{ exists (t1 ++ t2). split; [|exact Hboth]. simpl.
      now rewrite H2, H1, app_assoc. }
  pose proof (serialize_date_world last_modified w2) as H3.
  destruct (_serialize_date last_modified w2) as [[date|e] w3];
    simpl in H3; subst w3.
  2:{ exists (t1 ++ t2). split; [|exact Hboth]. simpl.
      now rewrite H2, H1, app_assoc. }
  exists (t1 ++ t2). split; [|exact Hboth].
  assert (Hcalls : calls w2 = calls w ++ t1 ++ t2)
    by now rewrite H2, H1, app_assoc.
  assert (Hresp : forall status,
            calls (snd (let (o, w') :=
                      _get_response_ status instance environ
                        (Fresh (<["ETag" := etag]>
                                  (<["Last-Modified" := date]> ∅))) w2 in
                    match o return Outcome (Headers * option Response) * World with
                    | Ret a =>
                        ret (<["ETag" := etag]> (<["Last-Modified" := date]> ∅),
                             Some a) w'
                    | Raise e => (Raise e, w')
                    end))
            = calls w ++ t1 ++ t2).
  { intros status.
    pose proof (get_response_fresh_world status instance environ
                  (<["ETag" := etag]> (<["Last-Modified" := date]> ∅)) w2) as Hw.
    destruct (_get_response_ status instance environ _ w2) as [[r|e] w5];
      simpl in Hw; subst w5; exact Hcalls. }
  destruct (_handle_condition_etag request etag =? 0).
  - pose proof (handle_condition_last_modified_world request last_modified w2) as H4.
    destruct (_handle_condition_last_modified request last_modified w2)
      as [[[status|]|e] w4]; simpl in H4; subst w4; try exact Hcalls.
    destruct (status >? 0); [apply Hresp|exact Hcalls].
  - unfold ret at 1.
    destruct (_handle_condition_etag request etag >? 0);
      [apply Hresp|exact Hcalls].
Qed.

(** Serving a request calls, in this order and each at most once, the ETag
    capability, the Last-Modified capability and the resolved handler, and
    nothing else; the handler is called only after the conditional
    evaluator has let the request proceed. *)
Theorem call_resource_call_order (res : Instance)
    (path_params : gmap string string) (environ : Environ) (w : World) :
  exists capabilities handler,
    calls (snd (_call_resource res path_params environ w))
    = calls w ++ capabilities ++ handler
    /\ map fst capabilities `sublist_of` ["get_etag"; "get_last_modified"]
    /\ (handler = []
        \/ exists method args default_headers w1,
             handler = [(method, args)]
             /\ _resolve_method res (REQUEST_METHOD environ) = Some method
             /\ _handle_conditions res path_params environ
                  (webob_Request environ) w
                = (Ret (default_headers, None), w1)).
Proof.
  unfold _call_resource. cbv zeta.
  change (webob.method (webob_Request environ)) with (REQUEST_METHOD environ).
  destruct (_resolve_method res (REQUEST_METHOD environ)) as [method|] eqn:Hres.
  - unfold bind.
    destruct (handle_conditions_calls res path_params environ
                (webob_Request environ) w) as (caps & Hcaps & Hsub).
    destruct (_handle_conditions res path_params environ (webob_Request environ) w)
      as [[[default_headers [response|]]|e] w1] eqn:Hcond; simpl in Hcaps |- *.
    + exists caps, []. rewrite app_nil_r. auto.
    + destruct (call_dynamic_method_calls res method path_params
                  (webob_Request environ) w1) as (h & Hh & Hsubh).
      exists caps, h. split; [|split; [exact Hsub|]].
      * destruct (_call_dynamic_method res method path_params
                    (webob_Request environ) w1) as [[result|e] w2];
          simpl in Hh |- *; now rewrite Hh, Hcaps, app_assoc.
      * destruct h as [|[name args] h]; [now left|]. right.
        simpl in Hsubh. apply sublist_cons_l in Hsubh as (k1 & k2 & Hk & Hrest).
        destruct k1 as [|x k1]; [|destruct k1; discriminate].
        injection Hk as Hname <-. subst name. apply sublist_nil_r in Hrest.
        destruct h; [|discriminate].
        exists method, args, default_headers, w1. auto.
    + exists caps, []. rewrite app_nil_r. auto.
  - exists [], []. split; [|split; [apply sublist_nil_l|now left]].
    rewrite !app_nil_r.
    destruct (Str.member _ _); reflexivity.
Qed.

(** ** Entity tags *)

Lemma quotes_in_app (s1 s2 : string) :
  quotes_in (s1 +:+ s2) = (quotes_in s1 + quotes_in s2)%nat.
Proof.
  induction s1 as [|c s1 IH]; [reflexivity|].
  rewrite append_cons. simpl. destruct (Ascii.eqb c Str.dquote); lia.
Qed.

Lemma quotes_in_strip_quotes (s : string) : quotes_in (Str.strip_quotes s) = O.
Proof.
  induction s as [|c s IH]; [reflexivity|]. simpl.
  destruct (Ascii.eqb c Str.dquote) eqn:E; [exact IH|]. simpl. now rewrite E.
Qed.

(** A computed ETag is well formed whatever the capability returned: a
    double quote, a text without double quote, a double quote. The text is
    what the conditional evaluator compares with the request. *)
Theorem computed_etag_well_formed (instance : Instance)
    (path_params : gmap string string) (request : Request) (w w' : World)
    (etag : string) :
  _get_etag instance path_params request w = (Ret (Some etag), w') ->
  exists inner,
    etag = Str.quote +:+ inner +:+ Str.quote
    /\ quotes_in inner = O
    /\ quotes_in etag = 2%nat
    /\ Str.strip_quotes etag = inner.
Proof.
  intros H. apply get_etag_some in H as (v & _ & _ & ->).
  exists (Str.strip_quotes v). split; [reflexivity|].
  split; [apply quotes_in_strip_quotes|]. split.
  - rewrite !quotes_in_app, quotes_in_strip_quotes. reflexivity.
  - apply strip_quotes_quoted.
Qed.

(** A request that presents the current tag: when the tag of the resource,
    without its quotes, is among If-None-Match (and If-Match does not
    exclude it), a GET or HEAD is answered 304 without body and any other
    verb 412, with the ETag and Last-Modified headers, whatever the
    Last-Modified capability returned; the handler is not called. *)
Theorem request_with_current_tag (res : Instance)
    (path_params : gmap string string) (environ : Environ) (w w1 w2 : World)
    (method etag : string) (last_modified : value) (date : option string) :
  _resolve_method res (REQUEST_METHOD environ) = Some method ->
  content_md5_ok environ ->
  _get_etag res path_params (webob_Request environ) w = (Ret (Some etag), w1) ->
  _get_last_modified res path_params (webob_Request environ) w1
  = (Ret last_modified, w2) ->
  fst (_serialize_date last_modified w2) = Ret date ->
  etag_in (Str.strip_quotes etag) (HTTP_IF_MATCH environ) ->
  etag_in (Str.strip_quotes etag) (HTTP_IF_NONE_MATCH environ) ->
  let headers : Headers :=
    <["ETag" := Some etag]> (<["Last-Modified" := date]> ∅) in
  _call_resource res path_params environ w
  = (Ret (if decide (REQUEST_METHOD environ = "GET"
                     \/ REQUEST_METHOD environ = "HEAD")
          then mkResponse BNone None 304 (Fresh headers) None
          else mkResponse (BError "Precondition failed") None 412
                 (Fresh headers) None),
     w2).
Proof.
  intros Hres Hmd5 Hetag Hlm Hdate Hmatch Hnone headers.
  unfold _call_resource. cbv zeta.
  change (webob.method (webob_Request environ)) with (REQUEST_METHOD environ).
  rewrite Hres. unfold bind at 1. unfold _handle_conditions.
  assert (Hmis : match HTTP_CONTENT_MD5 environ with
                 | Some content_md5 =>
                     negb (String.eqb (md5_hexdigest (wsgi_input environ)) content_md5)
                 | None => false
                 end = false).
  { unfold content_md5_ok in Hmd5.
    destruct (HTTP_CONTENT_MD5 environ); [|reflexivity].
    rewrite Hmd5, String.eqb_refl. reflexivity. }
  rewrite Hmis. unfold bind at 1. rewrite Hetag.
  unfold bind at 1. rewrite Hlm.
  pose proof (serialize_date_world last_modified w2) as Hw.
  destruct (_serialize_date last_modified w2) as [o w3] eqn:Hser.
  simpl in Hdate, Hw. subst o w3.
  unfold bind at 1. rewrite Hser. fold headers.
  rewrite (handle_condition_etag_computed _ _ _ _ _ _ Hetag).
  unfold spec_etag_decision.
  change (webob.if_match (webob_Request environ)) with (HTTP_IF_MATCH environ).
  change (webob.if_none_match (webob_Request environ))
    with (HTTP_IF_NONE_MATCH environ).
  change (webob.method (webob_Request environ)) with (REQUEST_METHOD environ).
  destruct (decide (¬ etag_in (Str.strip_quotes etag) (HTTP_IF_MATCH environ)));
    [contradiction|].
  destruct (decide (etag_in (Str.strip_quotes etag) (HTTP_IF_NONE_MATCH environ)));
    [|contradiction].
  destruct (decide (REQUEST_METHOD environ = "GET"
                    \/ REQUEST_METHOD environ = "HEAD")); reflexivity.
Qed.

(** ** The header merge as an operation on dicts *)

Lemma present_defaults_lookup (default_headers : Headers) (key : string) :
  present_defaults default_headers !! key
  = match default_headers !! key with
    | Some v => if truthy_opt v then Some v else None
    | None => None
    end.
Proof.
  unfold present_defaults. rewrite map_lookup_filter.
  destruct (default_headers !! key) as [v|]; [|reflexivity]. simpl.
  destruct (truthy_opt v) eqn:E.
  - now rewrite option_guard_True.
  - rewrite option_guard_False; [reflexivity|]. simpl. congruence.
Qed.

(** The merge loop computes a union: the handler's headers, completed by
    the default headers that are true as a Python value. Hence merging the
    same defaults a second time changes nothing, and defaults that are all
    absent leave the handler's headers as they are. *)
Theorem merge_default_headers_union (default_headers supplied : Headers) :
  merge_default_headers default_headers supplied
  = supplied ∪ present_defaults default_headers
  /\ merge_default_headers default_headers
       (merge_default_headers default_headers supplied)
     = merge_default_headers default_headers supplied
  /\ (present_defaults default_headers = ∅ ->
      merge_default_headers default_headers supplied = supplied).
Proof.
  assert (Hunion : forall h : Headers,
             merge_default_headers default_headers h
             = h ∪ present_defaults default_headers).
  { intros h. apply map_eq. intros key.
    rewrite merge_default_headers_lookup, lookup_union, present_defaults_lookup.
    destruct (h !! key) as [v|]; destruct (default_headers !! key) as [d|];
      try reflexivity; destruct (truthy_opt d); reflexivity. }
  split; [apply Hunion|]. split.
  - rewrite !Hunion. rewrite <- (assoc_L (∪)). now rewrite (idemp_L (∪)).
  - intros Hempty. rewrite Hunion, Hempty. apply (right_id_L ∅ (∪)).
Qed.

(** A resource without ETag and Last-Modified capability: the conditional
    headers of the request are not looked at, nothing is called before the
    handler, and the response headers are the handler's own. *)
Theorem plain_resource_response (res : Instance)
    (path_params : gmap string string) (environ : Environ) (w : World)
    (method : string) :
  hasattr res "get_etag" = false ->
  hasattr res "get_last_modified" = false ->
  content_md5_ok environ ->
  _resolve_method res (REQUEST_METHOD environ) = Some method ->
  _call_resource res path_params environ w
  = bind (_call_dynamic_method res method path_params (webob_Request environ))
      (fun result =>
         ret (mkResponse (BValue (supplied_body result)) (Some method)
                Response_default_status (Fresh (supplied_headers result))
                (path_params !! "_extension"))) w.
Proof.
  intros Hetag Hlm Hmd5 Hres.
  unfold _call_resource. cbv zeta.
  change (webob.method (webob_Request environ)) with (REQUEST_METHOD environ).
  rewrite Hres. unfold bind at 1. unfold _handle_conditions.
  assert (Hmis : match HTTP_CONTENT_MD5 environ with
                 | Some content_md5 =>
                     negb (String.eqb (md5_hexdigest (wsgi_input environ)) content_md5)
                 | None => false
                 end = false).
  { unfold content_md5_ok in Hmd5.
    destruct (HTTP_CONTENT_MD5 environ); [|reflexivity].
    rewrite Hmd5, String.eqb_refl. reflexivity. }
  rewrite Hmis. unfold _get_etag, _get_last_modified. rewrite Hetag, Hlm.
  simpl. unfold bind.
  destruct (_call_dynamic_method res method path_params (webob_Request environ) w)
    as [[result|e] w1]; [|reflexivity].
  unfold ret. do 3 f_equal.
  assert (Hnone : forall h : Headers,
            merge_default_headers
              (<["ETag" := None]> (<["Last-Modified" := None]> ∅)) h = h).
  { intros h. apply map_eq. intros key. rewrite merge_default_headers_lookup.
    destruct (h !! key) as [v|]; [reflexivity|].
    destruct (decide (key = "ETag")) as [->|H1];
      [now rewrite lookup_insert_eq|].
    rewrite lookup_insert_ne by congruence.
    destruct (decide (key = "Last-Modified")) as [->|H2];
      [now rewrite lookup_insert_eq|].
    rewrite lookup_insert_ne by congruence. now rewrite lookup_empty. }
  rewrite Hnone.
  destruct result as [| | | |b [h|]]; simpl; try reflexivity.
  now destruct (bool_decide_reflect (h = ∅)) as [->|_].
Qed.

(** ** The pipeline as a whole *)




(** ** The default dicts over a run of requests *)

Lemma call_defaults (self : Application) (environ : Environ) (w : World) :
  let w' := snd (__call__ self environ w) in
  headers_400 w' = headers_400 w
  /\ headers_404 w' = headers_404 w
  /\ allow_written (headers_405 w) (headers_405 w')
  /\ allow_written (headers_501 w) (headers_501 w').
Proof.
  unfold __call__, _handle_request, bind.
  destruct (_urlmap self (PATH_INFO environ)) as [[path_params res]|].
  - pose proof (call_resource_defaults res path_params environ w) as H.
    destruct (_call_resource res path_params environ w) as [[r|e] w'];
      exact H.
  - simpl. repeat split; left; reflexivity.
Qed.

Lemma only_allow_written (d d' : Headers) :
  only_allow d -> allow_written d d' -> only_allow d'.
Proof.
  intros Hd [->|[allow ->]]; [exact Hd|].
  intros key Hkey. rewrite lookup_insert_ne by congruence. now apply Hd.
Qed.

Lemma only_allow_insert (d : Headers) (allow : option string) :
  only_allow d -> <["Allow" := allow]> d = {["Allow" := allow]}.
Proof.
  intros Hd. apply map_eq. intros key.
  destruct (decide (key = "Allow")) as [->|Hne].
  - now rewrite lookup_insert_eq, lookup_singleton_eq.
  - rewrite lookup_insert_ne, lookup_singleton_ne by congruence. now apply Hd.
Qed.

(** However many requests the application has served since the module was
    imported, and whatever they were: the default dicts of the 400 and 404
    helpers are still empty, those of the 405 and 501 helpers hold nothing
    but an Allow entry, and the headers of a 405 or 501 response, when it is
    returned, are exactly the Allow header of its own instance. *)
Theorem default_dicts_invariant (self : Application) (requests : list Environ)
    (instance : Instance) (environ : Environ) :
  let w := serve_all self requests initial_world in
  headers_400 w = ∅
  /\ headers_404 w = ∅
  /\ only_allow (headers_405 w)
  /\ only_allow (headers_501 w)
  /\ (exists r w',
        _get_response_405 instance environ None w = (Ret r, w')
        /\ deref w' (headers r)
           = {["Allow" := Some (_get_allowed_methods instance)]})
  /\ (exists r w',
        _get_response_501 instance environ None w = (Ret r, w')
        /\ deref w' (headers r)
           = {["Allow" := Some (_get_allowed_methods instance)]}).
Proof.
  assert (Hinv : forall w0,
             headers_400 w0 = ∅ /\ headers_404 w0 = ∅
             /\ only_allow (headers_405 w0) /\ only_allow (headers_501 w0) ->
             let w := serve_all self requests w0 in
             headers_400 w = ∅ /\ headers_404 w = ∅
             /\ only_allow (headers_405 w) /\ only_allow (headers_501 w)).
  { induction requests as [|request rest IH]; intros w0 H; [exact H|].
    simpl. apply IH.
    destruct H as (H0 & H4 & H5 & H1).
    destruct (call_defaults self request w0) as (E0 & E4 & A5 & A1).
    repeat split.
    - now rewrite E0.
    - now rewrite E4.
    - exact (only_allow_written _ _ H5 A5).
    - exact (only_allow_written _ _ H1 A1). }
  destruct (Hinv initial_world) as (H0 & H4 & H5 & H1).
  { repeat split; intros key _; apply lookup_empty. }
  cbv zeta. repeat split; try assumption.
  - eexists _, _. split; [reflexivity|]. simpl. now apply only_allow_insert.
  - eexists _, _. split; [reflexivity|]. simpl. now apply only_allow_insert.
Qed.

(** ** More on the conditional evaluator *)

(** A request whose If-Match does not list the current tag of the resource
    is answered 412 for every verb, GET included, with the ETag and
    Last-Modified headers; the handler is not called. *)
Theorem stale_if_match_rejected (res : Instance)
    (path_params : gmap string string) (environ : Environ) (w w1 w2 : World)
    (method etag : string) (last_modified : value) (date : option string) :
  _resolve_method res (REQUEST_METHOD environ) = Some method ->
  content_md5_ok environ ->
  _get_etag res path_params (webob_Request environ) w = (Ret (Some etag), w1) ->
  _get_last_modified res path_params (webob_Request environ) w1
  = (Ret last_modified, w2) ->
  fst (_serialize_date last_modified w2) = Ret date ->
  ¬ etag_in (Str.strip_quotes etag) (HTTP_IF_MATCH environ) ->
  _call_resource res path_params environ w
  = (Ret (mkResponse (BError "Precondition failed") None 412
            (Fresh (<["ETag" := Some etag]> (<["Last-Modified" := date]> ∅)))
            None),
     w2).
Proof.
  intros Hres Hmd5 Hetag Hlm Hdate Hmatch.
  unfold _call_resource. cbv zeta.
  change (webob.method (webob_Request environ)) with (REQUEST_METHOD environ).
  rewrite Hres. unfold bind at 1. unfold _handle_conditions.
  assert (Hmis : match HTTP_CONTENT_MD5 environ with
                 | Some content_md5 =>
                     negb (String.eqb (md5_hexdigest (wsgi_input environ)) content_md5)
                 | None => false
                 end = false).
  { unfold content_md5_ok in Hmd5.
    destruct (HTTP_CONTENT_MD5 environ); [|reflexivity].
    rewrite Hmd5, String.eqb_refl. reflexivity. }
  rewrite Hmis. unfold bind at 1. rewrite Hetag.
  unfold bind at 1. rewrite Hlm.
  pose proof (serialize_date_world last_modified w2) as Hw.
  destruct (_serialize_date last_modified w2) as [o w3] eqn:Hser.
  simpl in Hdate, Hw. subst o w3.
  unfold bind at 1. rewrite Hser.
  rewrite (handle_condition_etag_computed _ _ _ _ _ _ Hetag).
  unfold spec_etag_decision.
  change (webob.if_match (webob_Request environ)) with (HTTP_IF_MATCH environ).
  destruct (decide (¬ etag_in (Str.strip_quotes etag) (HTTP_IF_MATCH environ)));
    [reflexivity|contradiction].
Qed.

(** A request without conditional header is never cut short: whatever the
    two capabilities return, the conditional evaluator lets the request
    proceed and hands over the two default headers. *)
Theorem unconditional_request_proceeds (res : Instance)
    (path_params : gmap string string) (environ : Environ) (w w1 w2 : World)
    (etag : option string) (last_modified : value) (date : option string) :
  content_md5_ok environ ->
  HTTP_IF_MATCH environ = AnyETag ->
  HTTP_IF_NONE_MATCH environ = NoETag ->
  HTTP_IF_MODIFIED_SINCE environ = None ->
  HTTP_IF_UNMODIFIED_SINCE environ = None ->
  _get_etag res path_params (webob_Request environ) w = (Ret etag, w1) ->
  _get_last_modified res path_params (webob_Request environ) w1
  = (Ret last_modified, w2) ->
  fst (_serialize_date last_modified w2) = Ret date ->
  _handle_conditions res path_params environ (webob_Request environ) w
  = (Ret (<["ETag" := etag]> (<["Last-Modified" := date]> ∅), None), w2).
Proof.
  intros Hmd5 Hm Hn Hims Hius Hetag Hlm Hdate.
  unfold _handle_conditions.
  assert (Hmis : match HTTP_CONTENT_MD5 environ with
                 | Some content_md5 =>
                     negb (String.eqb (md5_hexdigest (wsgi_input environ)) content_md5)
                 | None => false
                 end = false).
  { unfold content_md5_ok in Hmd5.
    destruct (HTTP_CONTENT_MD5 environ); [|reflexivity].
    rewrite Hmd5, String.eqb_refl. reflexivity. }
  rewrite Hmis. unfold bind at 1. rewrite Hetag.
  unfold bind at 1. rewrite Hlm.
  pose proof (serialize_date_world last_modified w2) as Hw.
  destruct (_serialize_date last_modified w2) as [o w3] eqn:Hser.
  simpl in Hdate, Hw. subst o w3.
  unfold bind at 1. rewrite Hser.
  assert (He : _handle_condition_etag (webob_Request environ) etag = 0).
  { unfold _handle_condition_etag. simpl. rewrite Hm, Hn. simpl.
    destruct etag as [tag|]; [|reflexivity]. now destruct (Str.truthy tag). }
  rewrite He. simpl.
  unfold _handle_condition_last_modified, bind. simpl. rewrite Hims, Hius.
  now destruct (truthy last_modified).
Qed.

(** The Last-Modified precondition is monotone in the timestamp: when a
    version is answered 304, every older version is too; when a version is
    answered 412, every newer version is too. *)
Theorem last_modified_decision_monotone (request : Request) (t t' : Z)
    (w : World) :
  t' <= t ->
  (fst (_handle_condition_last_modified request (VDate t) w) = Ret (Some 304) ->
   fst (_handle_condition_last_modified request (VDate t') w) = Ret (Some 304))
  /\ (fst (_handle_condition_last_modified request (VDate t') w) = Ret (Some 412) ->
      fst (_handle_condition_last_modified request (VDate t) w) = Ret (Some 412)).
Proof.
  intros Hle.
  change (VDate t) with (date_value (Some t)).
  change (VDate t') with (date_value (Some t')).
  rewrite !handle_condition_last_modified_spec.
  unfold spec_last_modified_decision, not_modified_since_dec, modified_after_dec,
    not_modified_since, modified_after. simpl.
  destruct (webob.if_modified_since request) as [ims|];
    destruct (webob.if_unmodified_since request) as [ius|];
    repeat destruct (decide _); split; intros H;
    try reflexivity; try discriminate; try lia; try tauto.
Qed.

End Properties.

(** ** The theorems at sample requests *)

Lemma etag_precondition_decision_witness :
  let request := webob_Request Sample.conditional_get in
  let etag := Str.quote +:+ "abc" +:+ Str.quote in
  fst (_get_etag (runtime := Sample.runtime) Sample.Document {["id" := "12"]}
         request initial_world) = Ret (Some etag)
  /\ _handle_condition_etag request (Some etag) = 304.
Proof.
  intros request etag.
  assert (H : fst (_get_etag (runtime := Sample.runtime) Sample.Document
                     {["id" := "12"]} request initial_world)
              = Ret (Some etag)) by (vm_compute; reflexivity).
  split; [exact H|].
  rewrite (etag_precondition_decision (runtime := Sample.runtime)
             Sample.Document {["id" := "12"]} request initial_world etag H).
  vm_compute. reflexivity.
Defined.

Lemma last_modified_precondition_decision_witness :
  let request := webob_Request Sample.unmodified_since_get in
  let path_params : gmap string string := {["id" := "12"]} in
  let etag := Some (Str.quote +:+ "abc" +:+ Str.quote) in
  let w1 := snd (_get_etag (runtime := Sample.runtime) Sample.Document
                   path_params request initial_world) in
  let w2 := snd (_get_last_modified (runtime := Sample.runtime) Sample.Document
                   path_params request w1) in
  let headers : Headers :=
    <["ETag" := etag]> (<["Last-Modified" := Some "date:1000"]> ∅) in
  (content_md5_ok (runtime := Sample.runtime) Sample.unmodified_since_get
   /\ _get_etag (runtime := Sample.runtime) Sample.Document path_params request
        initial_world = (Ret etag, w1)
   /\ _get_last_modified (runtime := Sample.runtime) Sample.Document path_params
        request w1 = (Ret (date_value (Some 1000)), w2))
  /\ _handle_conditions (runtime := Sample.runtime) Sample.Document path_params
       Sample.unmodified_since_get request initial_world
     = (Ret (headers,
             Some (mkResponse (BError "Precondition failed") None 412
                     (Fresh headers) None)), w2).
Proof.
  intros request path_params etag w1 w2 headers.
  assert (H0 : content_md5_ok (runtime := Sample.runtime)
                 Sample.unmodified_since_get) by exact I.
  assert (H1 : _get_etag (runtime := Sample.runtime) Sample.Document path_params
                 request initial_world = (Ret etag, w1))
    by (vm_compute; reflexivity).
  assert (H2 : _get_last_modified (runtime := Sample.runtime) Sample.Document
                 path_params request w1 = (Ret (date_value (Some 1000)), w2))
    by (vm_compute; reflexivity).
  split; [auto|].
  rewrite (last_modified_precondition_decision (runtime := Sample.runtime)
             Sample.Document path_params Sample.unmodified_since_get request
             initial_world w1 w2 etag (Some 1000) H0 H1 H2).
  vm_compute. reflexivity.
Defined.

Lemma head_served_by_get :
  ¬ exposes Sample.Hello "HEAD"
  /\ _call_resource (runtime := Sample.runtime) Sample.Hello ∅
       (Sample.request_env "HEAD" "/hello") initial_world
     = (Ret (mkResponse (BValue (VStr "hello")) (Some "GET") 200 (Fresh ∅) None),
        log_call initial_world ("GET", []))
  /\ ¬ method_not_allowed_response (runtime := Sample.runtime) Sample.Hello ∅
         (Sample.request_env "HEAD" "/hello") initial_world.
Proof.
  split; [|split].
  - intros [m H]. vm_compute in H. discriminate.
  - vm_compute. reflexivity.
  - intros (response & w' & Hcall & Hstatus & _).
    vm_compute in Hcall. injection Hcall as <- <-.
    vm_compute in Hstatus. discriminate.
Qed.

Lemma method_not_allowed_witness :
  (¬ exposes Sample.Store "DELETE"
   /\ (REQUEST_METHOD (Sample.request_env "DELETE" "/store") = "HEAD"
       -> ¬ exposes Sample.Store "GET"))
  /\ method_not_allowed_response (runtime := Sample.runtime) Sample.Store ∅
       (Sample.request_env "DELETE" "/store") initial_world.
Proof.
  assert (H1 : ¬ exposes Sample.Store "DELETE")
    by (intros [m H]; vm_compute in H; discriminate).
  assert (H2 : REQUEST_METHOD (Sample.request_env "DELETE" "/store") = "HEAD"
               -> ¬ exposes Sample.Store "GET")
    by (intros H; vm_compute in H; discriminate).
  split; [now split|].
  exact (method_not_allowed (runtime := Sample.runtime) Sample.Store ∅
           (Sample.request_env "DELETE" "/store") initial_world H1 H2).
Defined.

Lemma etag_header_value_witness :
  let request := webob_Request (Sample.request_env "GET" "/") in
  let abc := Sample.Tagged (VStr "abc") in
  let quoted := Sample.Tagged (VStr ("a" +:+ Str.quote +:+ "b")) in
  let empty := Sample.Tagged (VStr "") in
  let called := mkWorld ∅ ∅ ∅ ∅ [("get_etag", [])] in
  (hasattr Sample.Hello "get_etag" = false
   /\ _get_etag (runtime := Sample.runtime) Sample.Hello ∅ request initial_world
      = (Ret None, initial_world))
  /\ ((_call_dynamic_method (runtime := Sample.runtime) empty "get_etag" ∅
         request initial_world = (Ret (VStr ""), called)
       /\ truthy (VStr "") = false)
      /\ _get_etag (runtime := Sample.runtime) empty ∅ request initial_world
         = (Ret None, called))
  /\ ((_call_dynamic_method (runtime := Sample.runtime) abc "get_etag" ∅
         request initial_world = (Ret (VStr "abc"), called)
       /\ "abc" ≠ "")
      /\ _get_etag (runtime := Sample.runtime) abc ∅ request initial_world
         = (Ret (Some (Str.quote +:+ "abc" +:+ Str.quote)), called))
  /\ ((_call_dynamic_method (runtime := Sample.runtime) quoted "get_etag" ∅
         request initial_world
       = (Ret (VStr ("a" +:+ Str.quote +:+ "b")), called)
       /\ "a" +:+ Str.quote +:+ "b" ≠ "")
      /\ _get_etag (runtime := Sample.runtime) quoted ∅ request initial_world
         = (Ret (Some (Str.quote +:+ "ab" +:+ Str.quote)), called)).
Proof.
  intros request abc quoted empty called.
  split; [|split; [|split]].
  - split; [reflexivity|].
    apply (etag_header_value (runtime := Sample.runtime) Sample.Hello ∅ request
             initial_world).
    reflexivity.
  - assert (H : _call_dynamic_method (runtime := Sample.runtime) empty
                  "get_etag" ∅ request initial_world = (Ret (VStr ""), called))
      by (vm_compute; reflexivity).
    split; [split; [exact H|reflexivity]|].
    exact (proj1 (proj2 (etag_header_value (runtime := Sample.runtime) empty ∅
                           request initial_world))
             (VStr "") called H eq_refl).
  - assert (H : _call_dynamic_method (runtime := Sample.runtime) abc
                  "get_etag" ∅ request initial_world = (Ret (VStr "abc"), called))
      by (vm_compute; reflexivity).
    assert (Hne : "abc" ≠ "") by discriminate.
    split; [split; [exact H|exact Hne]|].
    exact (proj2 (proj2 (etag_header_value (runtime := Sample.runtime) abc ∅
                           request initial_world))
             "abc" called H Hne).
  - assert (H : _call_dynamic_method (runtime := Sample.runtime) quoted
                  "get_etag" ∅ request initial_world
                = (Ret (VStr ("a" +:+ Str.quote +:+ "b")), called))
      by (vm_compute; reflexivity).
    assert (Hne : "a" +:+ Str.quote +:+ "b" ≠ "") by discriminate.
    split; [split; [exact H|exact Hne]|].
    exact (proj2 (proj2 (etag_header_value (runtime := Sample.runtime) quoted ∅
                           request initial_world))
             ("a" +:+ Str.quote +:+ "b") called H Hne).
Defined.

Lemma call_dynamic_method_binding_witness :
  let request := webob_Request Sample.search_env in
  let path_params : gmap string string := {["a" := "path-a"]} in
  getattr Sample.Search "GET" = Some (Callable Sample.search_GET)
  /\ _call_dynamic_method (runtime := Sample.runtime) Sample.Search "GET"
       path_params request initial_world
     = (Ret VNone,
        log_call initial_world
          ("GET", [VRequest request; VStr "path-a"; VStr "query-b";
                   VStr "form-c"; VNone])).
Proof.
  intros request path_params.
  assert (H : getattr Sample.Search "GET" = Some (Callable Sample.search_GET))
    by reflexivity.
  split; [exact H|].
  destruct (call_dynamic_method_binding (runtime := Sample.runtime)
              Sample.Search "GET" Sample.search_GET path_params request
              initial_world H)
    as (args & Hbound & [[_ Hcall]|(param & arg & e & _ & _ & Hv & _)]).
  - rewrite Hcall. apply bound_to_unique_all in Hbound. subst args.
    vm_compute. reflexivity.
  - unfold _validate_param in Hv. simpl in Hv. discriminate.
Defined.

Lemma header_merge_witness :
  let environ := Sample.request_env "GET" "/document/12" in
  let request := webob_Request environ in
  let path_params : gmap string string := {["id" := "12"]} in
  let defaults : Headers :=
    <["ETag" := Some (Str.quote +:+ "abc" +:+ Str.quote)]>
      (<["Last-Modified" := Some "date:1000"]> ∅) in
  let w1 := snd (_handle_conditions (runtime := Sample.runtime) Sample.Document
                   path_params environ request initial_world) in
  let result := VMini (VStr "document") (Some {["ETag" := Some "custom"]}) in
  let w2 := log_call w1 ("GET", [VStr "12"; VRequest request]) in
  (_resolve_method Sample.Document (REQUEST_METHOD environ) = Some "GET"
   /\ _handle_conditions (runtime := Sample.runtime) Sample.Document path_params
        environ request initial_world = (Ret (defaults, None), w1)
   /\ _call_dynamic_method (runtime := Sample.runtime) Sample.Document "GET"
        path_params request w1 = (Ret result, w2))
  /\ exists final,
       _call_resource (runtime := Sample.runtime) Sample.Document path_params
         environ initial_world
       = (Ret (mkResponse (BValue (VStr "document")) (Some "GET") 200
                 (Fresh final) None), w2)
       /\ final !! "ETag" = Some (Some "custom")
       /\ final !! "Last-Modified" = Some (Some "date:1000").
Proof.
  intros environ request path_params defaults w1 result w2.
  assert (H1 : _resolve_method Sample.Document (REQUEST_METHOD environ)
               = Some "GET") by reflexivity.
  assert (H2 : _handle_conditions (runtime := Sample.runtime) Sample.Document
                 path_params environ request initial_world
               = (Ret (defaults, None), w1)) by (vm_compute; reflexivity).
  assert (H3 : _call_dynamic_method (runtime := Sample.runtime) Sample.Document
                 "GET" path_params request w1 = (Ret result, w2))
    by (vm_compute; reflexivity).
  split; [auto|].
  destruct (header_merge (runtime := Sample.runtime) Sample.Document path_params
              environ initial_world w1 w2 "GET" defaults result H1 H2 H3)
    as (final & etag & date & _ & Hcall & Hsupplied & Hdefault & _).
  exists final. split; [exact Hcall|]. split.
  - apply Hsupplied. reflexivity.
  - apply Hdefault; reflexivity.
Defined.

Lemma content_md5_mismatch_witness :
  let response :=
    mkResponse
      (BError "The Content-MD5 request header does not match the body.")
      None 400 (Shared Default400) None in
  (HTTP_CONTENT_MD5 Sample.corrupted_post = Some "deadbeef"
   /\ md5_hexdigest (Runtime := Sample.runtime) (wsgi_input Sample.corrupted_post)
      ≠ "deadbeef")
  /\ _handle_conditions (runtime := Sample.runtime) Sample.Store ∅
       Sample.corrupted_post (webob_Request Sample.corrupted_post) initial_world
     = (Ret (∅, Some response), initial_world)
  /\ _call_resource (runtime := Sample.runtime) Sample.Store ∅
       Sample.corrupted_post initial_world
     = (Ret response, initial_world).
Proof.
  intros response.
  assert (H1 : HTTP_CONTENT_MD5 Sample.corrupted_post = Some "deadbeef")
    by reflexivity.
  assert (H2 : md5_hexdigest (Runtime := Sample.runtime)
                 (wsgi_input Sample.corrupted_post) ≠ "deadbeef")
    by (vm_compute; discriminate).
  split; [now split|].
  destruct (content_md5_mismatch (runtime := Sample.runtime) Sample.Store ∅
              Sample.corrupted_post (webob_Request Sample.corrupted_post)
              initial_world "deadbeef" H1 H2) as [Hcond Hcall].
  split; [exact Hcond|]. apply (Hcall "POST"). reflexivity.
Defined.

Lemma validation_error_unhandled :
  __call__ (runtime := Sample.runtime) Sample.app
    (Sample.request_env "GET" "/export") initial_world
  = (Raise (ValidationException "Value for format must not be empty."),
     initial_world)
  /\ ¬ answered (runtime := Sample.runtime) Sample.app
        (Sample.request_env "GET" "/export") initial_world.
Proof.
  assert (H : __call__ (runtime := Sample.runtime) Sample.app
                (Sample.request_env "GET" "/export") initial_world
              = (Raise (ValidationException "Value for format must not be empty."),
                 initial_world)) by (vm_compute; reflexivity).
  split; [exact H|].
  intros (response & w' & Hcall). rewrite H in Hcall. discriminate.
Qed.

Lemma pipeline_failures_witness :
  let missing := Sample.request_env "GET" "/nowhere" in
  let delete := Sample.request_env "DELETE" "/store" in
  let export := Sample.request_env "GET" "/export" in
  let document := Sample.request_env "GET" "/document" in
  let defaults : Headers :=
    <["ETag" := Some (Str.quote +:+ "abc" +:+ Str.quote)]>
      (<["Last-Modified" := Some "date:1000"]> ∅) in
  let not_modified := mkResponse BNone None 304 (Fresh defaults) None in
  let etag_called := log_call initial_world ("get_etag", [VStr "12"]) in
  let both_called := log_call etag_called ("get_last_modified", [VStr "12"]) in
  let empty_format := ValidationException "Value for format must not be empty." in
  let empty_id := ValidationException "Value for id must not be empty." in
  (_urlmap Sample.app (PATH_INFO missing) = None
   /\ __call__ (runtime := Sample.runtime) Sample.app missing initial_world
      = (Ret (mkResponse (BError "not found") None 404 (Shared Default404) None),
         initial_world))
  /\ ((_urlmap Sample.app (PATH_INFO delete) = Some (∅, Sample.Store)
       /\ _resolve_method Sample.Store (REQUEST_METHOD delete) = None)
      /\ exists response w',
           __call__ (runtime := Sample.runtime) Sample.app delete initial_world
           = (Ret response, w')
           /\ (status response = 405 \/ status response = 501))
  /\ ((_urlmap Sample.app (PATH_INFO Sample.conditional_get)
        = Some ({["id" := "12"]}, Sample.Document)
       /\ _resolve_method Sample.Document (REQUEST_METHOD Sample.conditional_get)
          = Some "GET"
       /\ _handle_conditions (runtime := Sample.runtime) Sample.Document
            {["id" := "12"]} Sample.conditional_get
            (webob_Request Sample.conditional_get) initial_world
          = (Ret (defaults, Some not_modified), both_called))
      /\ __call__ (runtime := Sample.runtime) Sample.app Sample.conditional_get
           initial_world = (Ret not_modified, both_called))
  /\ ((_urlmap Sample.app (PATH_INFO document) = Some (∅, Sample.Document)
       /\ _resolve_method Sample.Document (REQUEST_METHOD document) = Some "GET"
       /\ _handle_conditions (runtime := Sample.runtime) Sample.Document ∅
            document (webob_Request document) initial_world
          = (Raise empty_id, initial_world))
      /\ __call__ (runtime := Sample.runtime) Sample.app document initial_world
         = (Raise empty_id, initial_world))
  /\ ((_urlmap Sample.app (PATH_INFO export) = Some (∅, Sample.Export)
       /\ _resolve_method Sample.Export (REQUEST_METHOD export) = Some "GET"
       /\ _handle_conditions (runtime := Sample.runtime) Sample.Export ∅ export
            (webob_Request export) initial_world
          = (Ret (<["ETag" := None]> (<["Last-Modified" := None]> ∅), None),
             initial_world)
       /\ getattr Sample.Export "GET" = Some (Callable Sample.export_GET)
       /\ bind_params (runtime := Sample.runtime) Sample.export_GET ∅
            (webob_Request export) (tail (argspec Sample.export_GET)) []
            initial_world
          = (Raise empty_format, initial_world))
      /\ __call__ (runtime := Sample.runtime) Sample.app export initial_world
         = (Raise empty_format, initial_world)).
Proof.
  intros missing delete export document defaults not_modified etag_called
    both_called empty_format empty_id.
  split; [|split; [|split; [|split]]].
  - assert (H : _urlmap Sample.app (PATH_INFO missing) = None) by reflexivity.
    split; [exact H|].
    exact (proj1 (pipeline_failures (runtime := Sample.runtime) Sample.app
                    missing initial_world) H).
  - assert (H1 : _urlmap Sample.app (PATH_INFO delete) = Some (∅, Sample.Store))
      by reflexivity.
    assert (H2 : _resolve_method Sample.Store (REQUEST_METHOD delete) = None)
      by reflexivity.
    split; [now split|].
    exact (proj1 (proj2 (pipeline_failures (runtime := Sample.runtime) Sample.app
                           delete initial_world) ∅ Sample.Store H1) H2).
  - assert (H1 : _urlmap Sample.app (PATH_INFO Sample.conditional_get)
                 = Some ({["id" := "12"]}, Sample.Document)) by reflexivity.
    assert (H2 : _resolve_method Sample.Document
                   (REQUEST_METHOD Sample.conditional_get) = Some "GET")
      by reflexivity.
    assert (H3 : _handle_conditions (runtime := Sample.runtime) Sample.Document
                   {["id" := "12"]} Sample.conditional_get
                   (webob_Request Sample.conditional_get) initial_world
                 = (Ret (defaults, Some not_modified), both_called))
      by (vm_compute; reflexivity).
    split; [auto|].
    exact (proj1 (proj1 (proj2 (proj2 (pipeline_failures
                                         (runtime := Sample.runtime) Sample.app
                                         Sample.conditional_get initial_world)
                                  _ _ H1) "GET" H2) _ _ _ H3)).
  - assert (H1 : _urlmap Sample.app (PATH_INFO document)
                 = Some (∅, Sample.Document)) by reflexivity.
    assert (H2 : _resolve_method Sample.Document (REQUEST_METHOD document)
                 = Some "GET") by reflexivity.
    assert (H3 : _handle_conditions (runtime := Sample.runtime) Sample.Document
                   ∅ document (webob_Request document) initial_world
                 = (Raise empty_id, initial_world)) by (vm_compute; reflexivity).
    split; [auto|].
    exact (proj1 (proj2 (proj2 (proj2 (pipeline_failures
                                         (runtime := Sample.runtime) Sample.app
                                         document initial_world)
                                  _ _ H1) "GET" H2)) _ _ H3).
  - assert (H1 : _urlmap Sample.app (PATH_INFO export) = Some (∅, Sample.Export))
      by reflexivity.
    assert (H2 : _resolve_method Sample.Export (REQUEST_METHOD export)
                 = Some "GET") by reflexivity.
    assert (H3 : _handle_conditions (runtime := Sample.runtime) Sample.Export ∅
                   export (webob_Request export) initial_world
                 = (Ret (<["ETag" := None]> (<["Last-Modified" := None]> ∅), None),
                    initial_world)) by (vm_compute; reflexivity).
    assert (H4 : getattr Sample.Export "GET" = Some (Callable Sample.export_GET))
      by reflexivity.
    assert (H5 : bind_params (runtime := Sample.runtime) Sample.export_GET ∅
                   (webob_Request export) (tail (argspec Sample.export_GET)) []
                   initial_world
                 = (Raise empty_format, initial_world))
      by (vm_compute; reflexivity).
    split; [auto 6|].
    exact (proj1 (proj2 (proj2 (proj2 (proj2 (pipeline_failures
                                         (runtime := Sample.runtime) Sample.app
                                         export initial_world)
                                  _ _ H1) "GET" H2)) _ _ _ _ _ H3 H4 H5)).
Defined.

(** The shared dict at work: [DELETE /store] is answered with 405 and
    [Allow: POST, PUT]; after a [GET /hello] and a [DELETE /hello], the
    headers of that first response read [Allow: GET]. *)
Example allow_header_leaks :
  let serve environ w := __call__ (runtime := Sample.runtime) Sample.app environ w in
  let first := serve (Sample.request_env "DELETE" "/store") initial_world in
  let second := serve (Sample.request_env "GET" "/hello") (snd first) in
  let third := serve (Sample.request_env "DELETE" "/hello") (snd second) in
  exists r1,
    fst first = Ret r1
    /\ deref (snd first) (headers r1) !! "Allow" = Some (Some "POST, PUT")
    /\ headers_405 (snd second) !! "Allow" = Some (Some "POST, PUT")
    /\ deref (snd third) (headers r1) !! "Allow" = Some (Some "GET").
Proof.
  eexists. split; [vm_compute; reflexivity|].
  repeat split; vm_compute; reflexivity.
Qed.

(** ** C5 *)

(** The pattern of the specification's example, [^[0-9]+$] for [id]: the
    value [12a] is refused and [12] is accepted. *)
Example validate_digits :
  let method :=
    mkMethod ["self"; "id"]
      (Some {["id" := ({["re" := Some "^[0-9]+$"]} : Rules)]}) None
      (fun _ => Ret VNone) in
  _validate_param (runtime := Sample.runtime) method "id" (VStr "12a") initial_world
  = (Raise (ValidationException "id value 12a does not validate."), initial_world)
  /\ _validate_param (runtime := Sample.runtime) method "id" (VStr "12") initial_world
     = (Ret tt, initial_world).
Proof. split; vm_compute; reflexivity. Qed.

(** C5. Validation of a non-empty value against a pattern rule is meant to
    succeed only when the pattern matches the whole value. The code
    searches the value for the pattern written between [^] and [$], and
    that accepts more: with the rule [json|xml] the value [jsonx] validates
    (the anchor [^] binds to the first alternative only) and the handler is
    invoked with it; with the rule [[0-9]+] the value [12] followed by a
    line feed validates ([$] also matches before a final line feed). In
    both cases no match of the pattern spans the value. *)
Theorem pattern_rule_accepts_partial_match :
  let line_feed := String Str.newline "" in
  (_validate_param (runtime := Sample.runtime) Sample.export_GET "format"
     (VStr "jsonx") initial_world = (Ret tt, initial_world)
   /\ re.fullmatch "json|xml" "jsonx" = Some false)
  /\ (_validate_param (runtime := Sample.runtime) Sample.item_GET "id"
        (VStr ("12" +:+ line_feed)) initial_world = (Ret tt, initial_world)
      /\ re.fullmatch "[0-9]+" ("12" +:+ line_feed) = Some false)
  /\ __call__ (runtime := Sample.runtime) Sample.app
       (Sample.with_query (Sample.request_env "GET" "/export")
          {["format" := "jsonx"]})
       initial_world
     = (Ret (mkResponse (BValue (VStr "exported")) (Some "GET") 200 (Fresh ∅) None),
        log_call initial_world ("GET", [VStr "jsonx"])).
Proof. repeat split; vm_compute; reflexivity. Qed.

(** ** Further properties at sample requests *)

Lemma method_rules_hide_class_rules_witness :
  let method_rules : gmap string Rules :=
    {["id" := ({["re" := Some "[0-9]+"]} : Rules)]} in
  let class_rules : gmap string Rules :=
    {["id" := ({["re" := Some "[a-z]+"]} : Rules)]} in
  let run := fun _ : list value => Ret VNone in
  is_Some (method_rules !! "id")
  /\ _validate_param (runtime := Sample.runtime)
       (mkMethod ["self"; "id"] (Some method_rules) (Some class_rules) run)
       "id" (VStr "12") initial_world
     = (Ret tt, initial_world).
Proof.
  intros method_rules class_rules run.
  assert (H : is_Some (method_rules !! "id")) by (eexists; reflexivity).
  split; [exact H|].
  rewrite (method_rules_hide_class_rules (runtime := Sample.runtime)
             ["self"; "id"] method_rules (Some class_rules) None run "id"
             (VStr "12") initial_world H).
  vm_compute. reflexivity.
Defined.

Lemma validate_param_failure_witness :
  _validate_param (runtime := Sample.runtime) Sample.export_GET "format"
    (VStr "csv") initial_world
  = (Raise (ValidationException "format value csv does not validate."),
     initial_world)
  /\ exists rules,
       find_rules Sample.export_GET "format" = Some rules
       /\ rule_pattern rules = Some "json|xml".
Proof.
  assert (H : _validate_param (runtime := Sample.runtime) Sample.export_GET
                "format" (VStr "csv") initial_world
              = (Raise (ValidationException "format value csv does not validate."),
                 initial_world)) by (vm_compute; reflexivity).
  split; [exact H|].
  destruct (validate_param_failure (runtime := Sample.runtime) Sample.export_GET
              "format" (VStr "csv") initial_world initial_world _ H)
    as (_ & rules & Hrules & [[[Hv|Hv] _]|(s & pattern & Hv & _ & Hp & Hs & _)]);
    try discriminate.
  exists rules. split; [exact Hrules|].
  injection Hv as <-. rewrite Hp. f_equal.
  vm_compute in Hrules. injection Hrules as <-. vm_compute in Hp.
  now injection Hp as <-.
Defined.

Lemma bind_params_first_failure_witness :
  let request :=
    webob_Request
      (Sample.with_query (Sample.request_env "GET" "/range")
         {["first" := "1"; "last" := "x"; "step" := "y"]}) in
  let validates param :=
    _validate_param (runtime := Sample.runtime) Sample.range_GET param
      (resolve_param ∅ request param) initial_world in
  (Forall (fun param => validates param = (Ret tt, initial_world)) ["first"]
   /\ validates "last"
      = (Raise (ValidationException "last value x does not validate."),
         initial_world))
  /\ bind_params (runtime := Sample.runtime) Sample.range_GET ∅ request
       (["first"] ++ "last" :: ["step"]) [] initial_world
     = (Raise (ValidationException "last value x does not validate."),
        initial_world).
Proof.
  intros request validates.
  assert (H1 : Forall (fun param => validates param = (Ret tt, initial_world))
                 ["first"])
    by (repeat constructor; vm_compute; reflexivity).
  assert (H2 : validates "last"
               = (Raise (ValidationException "last value x does not validate."),
                  initial_world)) by (vm_compute; reflexivity).
  split; [now split|].
  exact (bind_params_first_failure (runtime := Sample.runtime) Sample.range_GET
           ∅ request ["first"] "last" ["step"] [] _ initial_world H1 H2).
Defined.

Lemma computed_etag_well_formed_witness :
  let request := webob_Request (Sample.request_env "GET" "/") in
  let resource := Sample.Tagged (VStr ("a" +:+ Str.quote +:+ "b")) in
  let etag := Str.quote +:+ "ab" +:+ Str.quote in
  _get_etag (runtime := Sample.runtime) resource ∅ request initial_world
  = (Ret (Some etag), log_call initial_world ("get_etag", []))
  /\ quotes_in etag = 2%nat
  /\ Str.strip_quotes etag = "ab".
Proof.
  intros request resource etag.
  assert (H : _get_etag (runtime := Sample.runtime) resource ∅ request
                initial_world
              = (Ret (Some etag), log_call initial_world ("get_etag", [])))
    by (vm_compute; reflexivity).
  split; [exact H|].
  destruct (computed_etag_well_formed (runtime := Sample.runtime) resource ∅
              request initial_world _ etag H) as (inner & _ & _ & Hq & Hs).
  split; [exact Hq|]. vm_compute. reflexivity.
Defined.

Lemma request_with_current_tag_witness :
  let environ := Sample.conditional_get in
  let request := webob_Request environ in
  let path_params : gmap string string := {["id" := "12"]} in
  let etag := Str.quote +:+ "abc" +:+ Str.quote in
  let w1 := log_call initial_world ("get_etag", [VStr "12"]) in
  let w2 := log_call w1 ("get_last_modified", [VStr "12"]) in
  let headers : Headers :=
    <["ETag" := Some etag]> (<["Last-Modified" := Some "date:1000"]> ∅) in
  (_resolve_method Sample.Document (REQUEST_METHOD environ) = Some "GET"
   /\ content_md5_ok (runtime := Sample.runtime) environ
   /\ _get_etag (runtime := Sample.runtime) Sample.Document path_params request
        initial_world = (Ret (Some etag), w1)
   /\ _get_last_modified (runtime := Sample.runtime) Sample.Document path_params
        request w1 = (Ret (VDate 1000), w2)
   /\ fst (_serialize_date (runtime := Sample.runtime) (VDate 1000) w2)
      = Ret (Some "date:1000")
   /\ etag_in (Str.strip_quotes etag) (HTTP_IF_MATCH environ)
   /\ etag_in (Str.strip_quotes etag) (HTTP_IF_NONE_MATCH environ))
  /\ _call_resource (runtime := Sample.runtime) Sample.Document path_params
       environ initial_world
     = (Ret (mkResponse BNone None 304 (Fresh headers) None), w2).
Proof.
  intros environ request path_params etag w1 w2 headers.
  assert (H1 : _resolve_method Sample.Document (REQUEST_METHOD environ)
               = Some "GET") by reflexivity.
  assert (H2 : content_md5_ok (runtime := Sample.runtime) environ) by exact I.
  assert (H3 : _get_etag (runtime := Sample.runtime) Sample.Document path_params
                 request initial_world = (Ret (Some etag), w1))
    by (vm_compute; reflexivity).
  assert (H4 : _get_last_modified (runtime := Sample.runtime) Sample.Document
                 path_params request w1 = (Ret (VDate 1000), w2))
    by (vm_compute; reflexivity).
  assert (H5 : fst (_serialize_date (runtime := Sample.runtime) (VDate 1000) w2)
               = Ret (Some "date:1000")) by (vm_compute; reflexivity).
  assert (H6 : etag_in (Str.strip_quotes etag) (HTTP_IF_MATCH environ))
    by exact I.
  assert (H7 : etag_in (Str.strip_quotes etag) (HTTP_IF_NONE_MATCH environ))
    by (vm_compute; apply list_elem_of_here).
  split; [repeat split; assumption|].
  rewrite (request_with_current_tag (runtime := Sample.runtime) Sample.Document
             path_params environ initial_world w1 w2 "GET" etag (VDate 1000)
             (Some "date:1000") H1 H2 H3 H4 H5 H6 H7).
  reflexivity.
Defined.

Lemma plain_resource_response_witness :
  let environ := Sample.request_env "GET" "/hello" in
  (hasattr Sample.Hello "get_etag" = false
   /\ hasattr Sample.Hello "get_last_modified" = false
   /\ content_md5_ok (runtime := Sample.runtime) environ
   /\ _resolve_method Sample.Hello (REQUEST_METHOD environ) = Some "GET")
  /\ _call_resource (runtime := Sample.runtime) Sample.Hello ∅ environ
       initial_world
     = (Ret (mkResponse (BValue (VStr "hello")) (Some "GET") 200 (Fresh ∅) None),
        log_call initial_world ("GET", [])).
Proof.
  intros environ.
  assert (H1 : hasattr Sample.Hello "get_etag" = false) by reflexivity.
  assert (H2 : hasattr Sample.Hello "get_last_modified" = false) by reflexivity.
  assert (H3 : content_md5_ok (runtime := Sample.runtime) environ) by exact I.
  assert (H4 : _resolve_method Sample.Hello (REQUEST_METHOD environ) = Some "GET")
    by reflexivity.
  split; [auto|].
  rewrite (plain_resource_response (runtime := Sample.runtime) Sample.Hello ∅
             environ initial_world "GET" H1 H2 H3 H4).
  vm_compute. reflexivity.
Defined.



Lemma stale_if_match_rejected_witness :
  let environ := Sample.if_match_old in
  let request := webob_Request environ in
  let path_params : gmap string string := {["id" := "12"]} in
  let etag := Str.quote +:+ "abc" +:+ Str.quote in
  let w1 := log_call initial_world ("get_etag", [VStr "12"]) in
  let w2 := log_call w1 ("get_last_modified", [VStr "12"]) in
  let headers : Headers :=
    <["ETag" := Some etag]> (<["Last-Modified" := Some "date:1000"]> ∅) in
  (_resolve_method Sample.Document (REQUEST_METHOD environ) = Some "GET"
   /\ content_md5_ok (runtime := Sample.runtime) environ
   /\ _get_etag (runtime := Sample.runtime) Sample.Document path_params request
        initial_world = (Ret (Some etag), w1)
   /\ _get_last_modified (runtime := Sample.runtime) Sample.Document path_params
        request w1 = (Ret (VDate 1000), w2)
   /\ fst (_serialize_date (runtime := Sample.runtime) (VDate 1000) w2)
      = Ret (Some "date:1000")
   /\ ¬ etag_in (Str.strip_quotes etag) (HTTP_IF_MATCH environ))
  /\ _call_resource (runtime := Sample.runtime) Sample.Document path_params
       environ initial_world
     = (Ret (mkResponse (BError "Precondition failed") None 412 (Fresh headers)
               None), w2).
Proof.
  intros environ request path_params etag w1 w2 headers.
  assert (H1 : _resolve_method Sample.Document (REQUEST_METHOD environ)
               = Some "GET") by reflexivity.
  assert (H2 : content_md5_ok (runtime := Sample.runtime) environ) by exact I.
  assert (H3 : _get_etag (runtime := Sample.runtime) Sample.Document path_params
                 request initial_world = (Ret (Some etag), w1))
    by (vm_compute; reflexivity).
  assert (H4 : _get_last_modified (runtime := Sample.runtime) Sample.Document
                 path_params request w1 = (Ret (VDate 1000), w2))
    by (vm_compute; reflexivity).
  assert (H5 : fst (_serialize_date (runtime := Sample.runtime) (VDate 1000) w2)
               = Ret (Some "date:1000")) by (vm_compute; reflexivity).
  assert (H6 : ¬ etag_in (Str.strip_quotes etag) (HTTP_IF_MATCH environ)).
  { intros H. apply contains_etag_in in H. vm_compute in H. discriminate. }
  split; [repeat split; assumption|].
  exact (stale_if_match_rejected (runtime := Sample.runtime) Sample.Document
           path_params environ initial_world w1 w2 "GET" etag (VDate 1000)
           (Some "date:1000") H1 H2 H3 H4 H5 H6).
Defined.

Lemma unconditional_request_proceeds_witness :
  let environ := Sample.request_env "GET" "/document/12" in
  let request := webob_Request environ in
  let path_params : gmap string string := {["id" := "12"]} in
  let etag := Some (Str.quote +:+ "abc" +:+ Str.quote) in
  let w1 := log_call initial_world ("get_etag", [VStr "12"]) in
  let w2 := log_call w1 ("get_last_modified", [VStr "12"]) in
  (content_md5_ok (runtime := Sample.runtime) environ
   /\ HTTP_IF_MATCH environ = AnyETag
   /\ HTTP_IF_NONE_MATCH environ = NoETag
   /\ HTTP_IF_MODIFIED_SINCE environ = None
   /\ HTTP_IF_UNMODIFIED_SINCE environ = None
   /\ _get_etag (runtime := Sample.runtime) Sample.Document path_params request
        initial_world = (Ret etag, w1)
   /\ _get_last_modified (runtime := Sample.runtime) Sample.Document path_params
        request w1 = (Ret (VDate 1000), w2)
   /\ fst (_serialize_date (runtime := Sample.runtime) (VDate 1000) w2)
      = Ret (Some "date:1000"))
  /\ _handle_conditions (runtime := Sample.runtime) Sample.Document path_params
       environ request initial_world
     = (Ret (<["ETag" := etag]> (<["Last-Modified" := Some "date:1000"]> ∅), None),
        w2).
Proof.
  intros environ request path_params etag w1 w2.
  assert (H1 : content_md5_ok (runtime := Sample.runtime) environ) by exact I.
  assert (H6 : _get_etag (runtime := Sample.runtime) Sample.Document path_params
                 request initial_world = (Ret etag, w1))
    by (vm_compute; reflexivity).
  assert (H7 : _get_last_modified (runtime := Sample.runtime) Sample.Document
                 path_params request w1 = (Ret (VDate 1000), w2))
    by (vm_compute; reflexivity).
  assert (H8 : fst (_serialize_date (runtime := Sample.runtime) (VDate 1000) w2)
               = Ret (Some "date:1000")) by (vm_compute; reflexivity).
  split; [repeat split; assumption|].
  exact (unconditional_request_proceeds (runtime := Sample.runtime)
           Sample.Document path_params environ initial_world w1 w2 etag
           (VDate 1000) (Some "date:1000") H1 eq_refl eq_refl eq_refl eq_refl
           H6 H7 H8).
Defined.

Lemma last_modified_decision_monotone_witness :
  let request :=
    webob.mkRequest "GET" ∅ ∅ AnyETag NoETag (Some 500) (Some 100) in
  (300 <= 400)%Z
  /\ fst (_handle_condition_last_modified request (VDate 400) initial_world)
     = Ret (Some 304)
  /\ fst (_handle_condition_last_modified request (VDate 300) initial_world)
     = Ret (Some 304).
Proof.
  intros request.
  assert (H : (300 <= 400)%Z) by lia.
  assert (H1 : fst (_handle_condition_last_modified request (VDate 400)
                      initial_world) = Ret (Some 304)) by reflexivity.
  split; [exact H|]. split; [exact H1|].
  exact (proj1 (last_modified_decision_monotone request 400 300 initial_world H)
           H1).
Defined.
